(** * fast_segmentation/core/train.py: the training driver

    A shallow embedding of the training script.  The script owns no
    algorithm of its own: every step is a call into the deep-learning
    framework (or into helper modules of the repository that the script
    imports).  The embedding therefore keeps the script's control flow
    and data flow exactly, and leaves every external call to a handler
    that may answer with a value or raise a Python exception.  A run
    yields the ordered trace of the external calls it made (with their
    answers), the final state of the outside world and the outcome of
    the function: a value or a raised exception. *)

From Stdlib Require Import ZArith List String Ascii Bool Lia DecimalString.
Import ListNotations.

Local Open Scope string_scope.
Local Open Scope list_scope.
Local Open Scope Z_scope.

Set Implicit Arguments.

(** ** Python values the script handles *)

(** Exceptions.  [ZeroDivisionError], [ValueError] and [IndexError] are
    the ones the script's own expressions can raise ([%], [/], tuple
    unpacking, indexing); [FrameworkError] stands for anything else an
    external call raises. *)
Inductive exn : Type :=
| ZeroDivisionError
| ValueError
| IndexError
| FrameworkError (what : string).

(** Values owned by the framework: the script only names and passes
    them.  [tensor] covers images, labels, logits, losses and model
    parameters; [obj] every other framework object (model, optimizer,
    scaler, writer, logger, meters, scheduler, loss modules, state
    dictionaries, files); [number] Python's numbers ([int] and [float]
    results of [.item()], learning rates and scores). *)
Class Values : Type := {
  tensor : Type;
  obj : Type;
  number : Type;
  (* param.dim() *)
  dim : tensor -> Z;
  (* tensor + tensor, int + tensor, tensor + int *)
  tensor_add : tensor -> tensor -> tensor;
  tensor_radd_int : Z -> tensor -> tensor;
  tensor_add_int : tensor -> Z -> tensor;
  (* arithmetic and comparison on Python numbers *)
  num_of_Z : Z -> number;
  num_add : number -> number -> number;
  num_div : number -> number -> number;
  num_gt : number -> number -> bool
}.

(** The [argparse.Namespace] built by [parse_args]: one attribute per
    declared argument ([--finetune-from] is stored as [finetune_from]).
    [Args.im_root args] reads [args.im_root]. *)
Module Args.
Record Namespace : Type := {
  local_rank : Z;
  port : Z;
  model : string;
  finetune_from : string;
  im_root : string;
  train_im_anns : string;
  val_im_anns : string;
  log_path : string;
  false_analysis_path : string;
  tensorboard_path : string;
  models_path : string;
  config_path : string;
  amp : bool
}.
End Args.

(** One [add_argument] declaration of [parse_args]. *)
Inductive arg_type : Type := TInt | TStr | TBool.

Inductive arg_default : Type :=
| DInt (z : Z)
| DStr (s : string)
| DBool (b : bool).

Record arg_spec : Type := {
  flag : string;
  arg_ty : arg_type;
  default : arg_default
}.

Section WithValues.
Context {V : Values}.

(** The keys the script reads from the YAML configuration. *)
Record Config : Type := {
  cfg_ims_per_gpu : Z;
  cfg_scales : list number;
  cfg_crop_size : Z * Z;
  cfg_max_iter : Z;
  cfg_use_sync_bn : bool;
  cfg_num_aux_heads : Z;
  cfg_warmup_iters : Z;
  cfg_use_fp16 : bool;
  cfg_message_iters : Z;
  cfg_checkpoint_iters : Z;
  cfg_lr_start : number;
  cfg_optimizer_betas : number * number;
  cfg_weight_decay : number
}.

(** A parameter-group dictionary handed to [torch.optim.Adam]: the key
    ['params'] and, optionally, the key ['weight_decay']. *)
Record param_group : Type := {
  params : list tensor;
  weight_decay_key : option number
}.

(** The value logged by [writer.add_scalar]: a loss tensor or a number. *)
Inductive scalar_value : Type :=
| SVTensor (t : tensor)
| SVNumber (n : number).

(** ** External calls

    Every call the script makes outside itself, with the arguments the
    script passes and the type of the answer it expects. *)
Inductive fcall : Type -> Type :=
(* module level *)
| TorchManualSeed (seed : Z) : fcall unit
| CudaManualSeed (seed : Z) : fcall unit
| NumpyRandomSeed (seed : Z) : fcall unit
| RandomSeed (seed : Z) : fcall unit
| SetCudnnDeterministic (b : bool) : fcall unit
(* parse_args *)
| ArgparseParse (specs : list arg_spec) : fcall Args.Namespace
(* __main__ *)
| OpenFile (path : string) : fcall obj
| FileExit (f : obj) : fcall unit
| YamlLoad (f : obj) : fcall Config
| CudaEmptyCache : fcall unit
| CudaSetDevice (device : Z) : fcall unit
| CudaDeviceCount : fcall Z
| DistInitProcessGroup (backend init_method : string) (world_size rank : Z) : fcall unit
| OsPathExists (path : string) : fcall bool
| OsMakedirs (path : string) : fcall unit
| SetupLogger (name path : string) : fcall unit
(* train: set-up *)
| GetLogger : fcall obj
| GetNextDirName (root_dir : string) : fcall string
| NewSummaryWriter (log_dir : string) : fcall obj
| DistIsInitialized : fcall bool
| GetDataLoader (data_path ann_path : string) (ims_per_gpu : Z) (scales : list number)
    (crop_size : Z * Z) (max_iter : Z) (mode : string) (distributed : bool)
    : fcall (list (tensor * tensor))
| BuildModel (name : string) (is_train is_distributed : bool) (pretrained_model_path : string)
    (use_sync_bn : bool) : fcall obj
| NewSoftDiceLoss : fcall obj
| NewGradScaler : fcall obj
| NewWarmupPolyLrScheduler (optimizer : obj) (power : string) (max_iter warmup_iter : Z)
    (warmup_ratio warmup : string) (last_epoch : Z) : fcall obj
(* get_optimizer *)
| NamedParameters (net : obj) : fcall (list (string * tensor))
| NewAdam (params_list : list param_group) (lr : number) (betas : number * number)
    (weight_decay : number) : fcall obj
(* get_meters *)
| NewTimeMeter (max_iter : Z) : fcall obj
| NewAvgMeter (name : string) : fcall obj
(* train: loop body *)
| TensorCuda (t : tensor) : fcall tensor
| WriterAddGraph (writer net : obj) (image : tensor) : fcall unit
| TorchSqueeze (t : tensor) (d : Z) : fcall tensor
| ZeroGrad (optimizer : obj) : fcall unit
| AutocastEnter (enabled : bool) : fcall unit
| AutocastExit : fcall unit
| NetCall (net : obj) (image : tensor) : fcall (list tensor)
| CriteriaCall (criteria : obj) (logits label : tensor) : fcall tensor
| WriterAddScalar (writer : obj) (tag : string) (value : scalar_value) (step : Z) : fcall unit
| ScalerScale (scaler : obj) (loss : tensor) : fcall tensor
| Backward (t : tensor) : fcall unit
| ScalerStep (scaler optimizer : obj) : fcall unit
| ScalerUpdate (scaler : obj) : fcall unit
| CudaSynchronize : fcall unit
| TimeMeterUpdate (meter : obj) : fcall unit
| TensorItem (t : tensor) : fcall number
| AvgMeterUpdate (meter : obj) (value : number) : fcall unit
| SchedulerGetLr (scheduler : obj) : fcall (list number)
| PrintLogMsg (iteration max_iter : Z) (lr : number) (time_meter loss_meter loss_pre_meter : obj)
    (loss_aux_meters : list obj) : fcall unit
| SchedulerStep (scheduler : obj) : fcall unit
| WriterFlush (writer : obj) : fcall unit
| WriterClose (writer : obj) : fcall unit
(* evaluation and checkpoints *)
| GetNextFileName (dir prefix suffix : string) : fcall string
| LoggerInfo (logger : obj) (msg : string) : fcall unit
| EvalModel (net : obj) (ims_per_gpu : Z) (im_root im_anns : string) (crop_size : Z * Z)
    (false_analysis_path : string) : fcall (list string * list number)
| Tabulate (rows : list (list number)) (headers : list string) (tablefmt : string) : fcall string
| StateDict (net : obj) : fcall obj
| DistGetRank : fcall Z
| TorchSave (state : obj) (path : string) : fcall unit.

(** An event of the trace: an external call and its answer. *)
Inductive event : Type :=
| Ev : forall R : Type, fcall R -> exn + R -> event.

(** The outside world: its state and how it answers a call. *)
Class Framework : Type := {
  world : Type;
  handle : forall R : Type, fcall R -> world -> world * (exn + R)
}.

Context {F : Framework}.

(** ** The monad of the script: state, exceptions and a trace *)

Record result (A : Type) : Type := mkResult {
  trace : list event;
  final : world;
  outcome : exn + A
}.

Definition M (A : Type) : Type := world -> result A.

Definition prepend {A : Type} (t : list event) (r : result A) : result A :=
  match r with
  | mkResult t2 w2 o => mkResult (t ++ t2) w2 o
  end.

Definition ret {A : Type} (a : A) : M A :=
  fun w => mkResult [] w (inr a).

Definition raise {A : Type} (e : exn) : M A :=
  fun w => mkResult [] w (inl e).

Definition bind {A B : Type} (m : M A) (f : A -> M B) : M B :=
  fun w =>
    match m w with
    | mkResult t w1 (inl e) => mkResult t w1 (inl e)
    | mkResult t w1 (inr a) => prepend t (f a w1)
    end.

Definition call {R : Type} (c : fcall R) : M R :=
  fun w =>
    match handle c w with
    | (w1, r) => mkResult [Ev c r] w1 r
    end.

(** [try: body finally: cleanup]: the clean-up runs whatever the body
    did; an exception of the body is raised again after it, unless the
    clean-up itself raises. *)
Definition finally {A : Type} (body : M A) (cleanup : M unit) : M A :=
  fun w =>
    match body w with
    | mkResult t w1 o =>
        match cleanup w1 with
        | mkResult t2 w2 (inl e2) => mkResult (t ++ t2) w2 (inl e2)
        | mkResult t2 w2 (inr _) => mkResult (t ++ t2) w2 o
        end
    end.

(** [try: body except: handler].  The script never uses it; it is here
    so that the monad can express a handler at all. *)
Definition try_except {A : Type} (body : M A) (handler : exn -> M A) : M A :=
  fun w =>
    match body w with
    | mkResult t w1 (inl e) => prepend t (handler e w1)
    | mkResult t w1 (inr a) => mkResult t w1 (inr a)
    end.

End WithValues.

Declare Scope script_scope.
Delimit Scope script_scope with script.
Notation "x <- m ;; k" := (bind m (fun x => k))
  (at level 61, m at next level, right associativity) : script_scope.
Notation "' pat <- m ;; k" := (bind m (fun x => match x with pat => k end))
  (at level 61, pat pattern, m at next level, right associativity) : script_scope.
Notation "m ;;; k" := (bind m (fun _ => k))
  (at level 61, right associativity) : script_scope.

Local Open Scope script_scope.

(** ** Python expressions the script evaluates itself *)

(** [str(i)] for an integer. *)
Definition string_of_Z (z : Z) : string := NilZero.string_of_int (Z.to_int z).

(** The newline character of the message of [save_evaluation_log]. *)
Definition nl : string := String (ascii_of_nat 10) EmptyString.

(** [range(n)]: empty when [n <= 0]. *)
Definition py_range (n : Z) : list Z := map Z.of_nat (seq 0 (Z.to_nat n)).

(** [path.endswith('/')]. *)
Fixpoint ends_with_sep (path : string) : bool :=
  match path with
  | EmptyString => false
  | String c EmptyString => Ascii.eqb c "/"
  | String _ rest => ends_with_sep rest
  end.

(** [os.path.join(a, b)] on POSIX. *)
Definition os_path_join (a b : string) : string :=
  if String.prefix "/" b then b
  else if (String.eqb a "" || ends_with_sep a)%bool then (a ++ b)%string
  else (a ++ "/" ++ b)%string.

Section Script.
Context {V : Values} {F : Framework}.

(** [a % b] on integers: Python's floored modulo, [ZeroDivisionError]
    when [b] is zero. *)
Definition py_mod (a b : Z) : M Z :=
  if b =? 0 then raise ZeroDivisionError else ret (a mod b).

(** What [sum] of a list of tensors can be: the integer it starts from,
    or a tensor. *)
Inductive int_or_tensor : Type :=
| PInt (z : Z)
| PTensor (t : tensor).

Definition py_add (a : int_or_tensor) (b : tensor) : int_or_tensor :=
  match a with
  | PInt z => PTensor (tensor_radd_int z b)
  | PTensor t => PTensor (tensor_add t b)
  end.

(** [sum(losses)] for a list of tensors: starts from the integer [0]. *)
Definition py_sum (losses : list tensor) : int_or_tensor :=
  fold_left py_add losses (PInt 0).

(** [t + s] where [s] is the result of [sum]. *)
Definition tensor_plus (t : tensor) (s : int_or_tensor) : tensor :=
  match s with
  | PInt z => tensor_add_int t z
  | PTensor u => tensor_add t u
  end.

(** [sum(lr)] for a list of numbers. *)
Definition num_sum (l : list number) : number :=
  fold_left num_add l (num_of_Z 0).

(** [sum(lr) / len(lr)]: [ZeroDivisionError] when the list is empty. *)
Definition py_mean (lr : list number) : M number :=
  match lr with
  | [] => raise ZeroDivisionError
  | _ :: _ => ret (num_div (num_sum lr) (num_of_Z (Z.of_nat (List.length lr))))
  end.

(** A list comprehension whose element expression makes calls. *)
Fixpoint mapM {A B : Type} (f : A -> M B) (l : list A) : M (list B) :=
  match l with
  | [] => ret []
  | x :: xs =>
      y <- f x;;
      ys <- mapM f xs;;
      ret (y :: ys)
  end.

(** [for i, x in enumerate(l)] starting at index [i], threading the
    variables the body assigns. *)
Fixpoint for_enumerate {A S : Type} (body : Z -> A -> S -> M S) (l : list A) (i : Z) (s : S)
  : M S :=
  match l with
  | [] => ret s
  | x :: xs =>
      s1 <- body i x s;;
      for_enumerate body xs (i + 1) s1
  end.

(** [with amp.autocast(enabled=...)]: the region is left through
    [__exit__] whatever happens in it.  [__exit__] of [autocast] (and
    of a file object) returns a false value, so an exception raised in
    the region is raised again after it. *)
Definition with_autocast {A : Type} (enabled : bool) (body : M A) : M A :=
  call (AutocastEnter enabled);;;
  finally body (call AutocastExit).

(** [with open(path) as f]. *)
Definition with_open {A : Type} (path : string) (body : obj -> M A) : M A :=
  f <- call (OpenFile path);;
  finally (body f) (call (FileExit f)).

(** ** The script *)

(** The statements at module level: fix all random seeds. *)
Definition fix_random_seeds : M unit :=
  call (TorchManualSeed 123);;;
  call (CudaManualSeed 123);;;
  call (NumpyRandomSeed 123);;;
  call (RandomSeed 123);;;
  call (SetCudnnDeterministic true).



(** One turn of the loop of [get_optimizer] over [net.named_parameters()]. *)
Definition classify_parameter (groups : list tensor * list tensor) (named : string * tensor)
  : list tensor * list tensor :=
  let '(wd_params, non_wd_params) := groups in
  let param := snd named in
  if dim param =? 1 then (wd_params, non_wd_params ++ [param])
  else if ((dim param =? 2) || (dim param =? 4))%bool then (wd_params ++ [param], non_wd_params)
  else (wd_params, non_wd_params).

Definition get_optimizer (net : obj) (lr_start : number) (optimizer_betas : number * number)
    (weight_decay : number) : M obj :=
  named_parameters <- call (NamedParameters net);;
  let '(wd_params, non_wd_params) := fold_left classify_parameter named_parameters ([], []) in
  let params_list :=
    [ {| params := wd_params; weight_decay_key := None |};
      {| params := non_wd_params; weight_decay_key := Some (num_of_Z 0) |} ] in
  call (NewAdam params_list lr_start optimizer_betas weight_decay).

Definition get_meters (max_iter num_aux_heads : Z) : M (obj * obj * obj * list obj) :=
  time_meter <- call (NewTimeMeter max_iter);;
  loss_meter <- call (NewAvgMeter "loss");;
  loss_pre_meter <- call (NewAvgMeter "loss_prem");;
  loss_aux_meters <-
    mapM (fun i => call (NewAvgMeter ("loss_aux" ++ string_of_Z i)%string)) (py_range num_aux_heads);;
  ret (time_meter, loss_meter, loss_pre_meter, loss_aux_meters).

Definition log_ious (writer : obj) (mious : list number) (iteration : Z) (headers : list string)
    (logger : obj) (mode : string) : M unit :=
  match mious with
  | [single_scale_miou; single_scale_crop_miou; ms_flip_miou; ms_flip_crop_miou] =>
      call (WriterAddScalar writer ("mIOU/" ++ mode ++ "/single_scale")%string
              (SVNumber single_scale_miou) iteration);;;
      call (WriterAddScalar writer ("mIOU/" ++ mode ++ "/single_scale_crop")%string
              (SVNumber single_scale_crop_miou) iteration);;;
      call (WriterAddScalar writer ("mIOU/" ++ mode ++ "/multi_scale_flip")%string
              (SVNumber ms_flip_miou) iteration);;;
      call (WriterAddScalar writer ("mIOU/" ++ mode ++ "/multi_scale_flip_crop")%string
              (SVNumber ms_flip_crop_miou) iteration);;;
      table <- call (Tabulate [mious] headers "orgtbl");;
      call (LoggerInfo logger table)
  | _ => raise ValueError
  end.

Definition save_best_model (cur_score best_score : number) (models_dir : string) (net : obj)
  : M number :=
  if num_gt cur_score best_score then
    let best_score := cur_score in
    let save_pth := os_path_join models_dir "best_model.pth" in
    state <- call (StateDict net);;
    rank <- call DistGetRank;;
    (if rank =? 0 then call (TorchSave state save_pth) else ret tt);;;
    ret best_score
  else
    ret best_score.

Definition save_evaluation_log (models_dir : string) (logger net writer : obj) (iteration : Z)
    (best_score : number) (ims_per_gpu : Z) (crop_size : Z * Z)
    (log_path im_root val_im_anns false_analysis_path train_im_anns : string) : M number :=
  log_pth <- call (GetNextFileName log_path "model_final_" ".pth");;
  call (LoggerInfo logger
          (nl ++ "evaluating the model " ++ nl ++ "save models to " ++ log_pth)%string);;;
  call CudaEmptyCache;;;
  ' (heads_val, mious_val) <-
    call (EvalModel net ims_per_gpu im_root val_im_anns crop_size false_analysis_path);;
  log_ious writer mious_val iteration heads_val logger "val";;;
  ' (heads_train, mious_train) <-
    call (EvalModel net ims_per_gpu im_root train_im_anns crop_size false_analysis_path);;
  log_ious writer mious_train iteration heads_train logger "train";;;
  cur_score <- match mious_val with
               | [] => raise IndexError
               | first :: _ => ret first
               end;;
  save_best_model cur_score best_score models_dir net.

Definition save_checkpoint (models_dir : string) (net : obj) : M unit :=
  save_pth <- call (GetNextFileName models_dir "model_final_" ".pth");;
  state <- call (StateDict net);;
  rank <- call DistGetRank;;
  if rank =? 0 then call (TorchSave state save_pth) else ret tt.

(** The keyword arguments of [train]. *)
Record train_args : Type := {
  ims_per_gpu : Z;
  scales : list number;
  crop_size : Z * Z;
  max_iter : Z;
  use_sync_bn : bool;
  num_aux_heads : Z;
  warmup_iters : Z;
  use_fp16 : bool;
  message_iters : Z;
  checkpoint_iters : Z;
  lr_start : number;
  optimizer_betas : number * number;
  weight_decay : number;
  log_path : string;
  im_root : string;
  val_im_anns : string;
  false_analysis_path : string;
  train_im_anns : string
}.

(** The local variables of [train] that the loop body reads. *)
Record train_locals : Type := {
  logger : obj;
  models_dir : string;
  writer : obj;
  net : obj;
  criteria_pre : obj;
  criteria_aux : list obj;
  optimizer : obj;
  scaler : obj;
  time_meter : obj;
  loss_meter : obj;
  loss_pre_meter : obj;
  loss_aux_meters : list obj;
  lr_scheduler : obj
}.

(** The block under [with amp.autocast(enabled=use_fp16)]: the forward
    pass, the main loss and the auxiliary losses.  It leaves [loss],
    [loss_pre] and [loss_aux] to the statements after the block. *)
Definition forward_and_losses (l : train_locals) (iteration : Z) (image label : tensor)
  : M (tensor * tensor * list tensor) :=
  outputs <- call (NetCall (net l) image);;
  match outputs with
  | [] => raise ValueError
  | logits :: logits_aux =>
      loss_pre <- call (CriteriaCall (criteria_pre l) logits label);;
      loss_aux <-
        mapM (fun '(criteria, logits) => call (CriteriaCall criteria logits label))
             (combine (criteria_aux l) logits_aux);;
      let loss := tensor_plus loss_pre (py_sum loss_aux) in
      call (WriterAddScalar (writer l) "Loss/train" (SVTensor loss) iteration);;;
      ret (loss, loss_pre, loss_aux)
  end.

(** The body of the training loop of [train]: one iteration, from the
    batch and the current [best_score] to the next [best_score]. *)
Definition train_iteration (k : train_args) (l : train_locals) (iteration : Z)
    (batch : tensor * tensor) (best_score : number) : M number :=
  let '(image, label) := batch in
  image <- call (TensorCuda image);;
  label <- call (TensorCuda label);;
  (if iteration =? 0 then call (WriterAddGraph (writer l) (net l) image) else ret tt);;;
  label <- call (TorchSqueeze label 1);;
  call (ZeroGrad (optimizer l));;;
  ' (loss, loss_pre, loss_aux) <-
    with_autocast (use_fp16 k) (forward_and_losses l iteration image label);;
  scaled <- call (ScalerScale (scaler l) loss);;
  call (Backward scaled);;;
  call (ScalerStep (scaler l) (optimizer l));;;
  call (ScalerUpdate (scaler l));;;
  call CudaSynchronize;;;
  call (TimeMeterUpdate (time_meter l));;;
  loss_item <- call (TensorItem loss);;
  call (AvgMeterUpdate (loss_meter l) loss_item);;;
  loss_pre_item <- call (TensorItem loss_pre);;
  call (AvgMeterUpdate (loss_pre_meter l) loss_pre_item);;;
  mapM (fun '(metric, loss) =>
          item <- call (TensorItem loss);;
          call (AvgMeterUpdate metric item))
       (combine (loss_aux_meters l) loss_aux);;;
  (* print training log message *)
  message_rem <- py_mod (iteration + 1) (message_iters k);;
  (if message_rem =? 0 then
     lr <- call (SchedulerGetLr (lr_scheduler l));;
     lr <- py_mean lr;;
     call (PrintLogMsg iteration (max_iter k) lr (time_meter l) (loss_meter l)
             (loss_pre_meter l) (loss_aux_meters l))
   else ret tt);;;
  (* saving the model and evaluating it *)
  checkpoint_rem <- py_mod (iteration + 1) (checkpoint_iters k);;
  best_score <-
    (if checkpoint_rem =? 0 then
       best_score <-
         save_evaluation_log (models_dir l) (logger l) (net l) (writer l) iteration best_score
           (ims_per_gpu k) (crop_size k) (log_path k) (im_root k) (val_im_anns k)
           (false_analysis_path k) (train_im_anns k);;
       save_checkpoint (models_dir l) (net l);;;
       ret best_score
     else ret best_score);;
  call (SchedulerStep (lr_scheduler l));;;
  ret best_score.

(** [train].  [args] is the module-level variable the function reads.
    The data loader is taken as the finite sequence of batches it
    yields. *)
Definition train (args : Args.Namespace) (k : train_args) : M unit :=
  logger <- call GetLogger;;
  tensorboard_log_dir <- call (GetNextDirName (Args.tensorboard_path args));;
  models_dir <- call (GetNextDirName (Args.models_path args));;
  writer <- call (NewSummaryWriter tensorboard_log_dir);;
  is_dist <- call DistIsInitialized;;
  (* set all components *)
  data_loader <-
    call (GetDataLoader (Args.im_root args) (Args.train_im_anns args) (ims_per_gpu k) (scales k)
            (crop_size k) (max_iter k) "train" is_dist);;
  net <- call (BuildModel (Args.model args) true is_dist (Args.finetune_from args)
                 (use_sync_bn k));;
  criteria_pre <- call NewSoftDiceLoss;;
  criteria_aux <- mapM (fun _ => call NewSoftDiceLoss) (py_range (num_aux_heads k));;
  optimizer <- get_optimizer net (lr_start k) (optimizer_betas k) (weight_decay k);;
  scaler <- call NewGradScaler;;
  ' (time_meter, loss_meter, loss_pre_meter, loss_aux_meters) <-
    get_meters (max_iter k) (num_aux_heads k);;
  lr_scheduler <-
    call (NewWarmupPolyLrScheduler optimizer "0.9" (max_iter k) (warmup_iters k) "0.1" "exp" (-1));;
  let best_score := num_of_Z 0 in
  let l := {| logger := logger; models_dir := models_dir; writer := writer; net := net;
              criteria_pre := criteria_pre; criteria_aux := criteria_aux;
              optimizer := optimizer; scaler := scaler; time_meter := time_meter;
              loss_meter := loss_meter; loss_pre_meter := loss_pre_meter;
              loss_aux_meters := loss_aux_meters; lr_scheduler := lr_scheduler |} in
  (* train loop *)
  for_enumerate (train_iteration k l) data_loader 0 best_score;;;
  call (WriterFlush writer);;;
  call (WriterClose writer).

(** The keyword arguments the [__main__] block passes to [train]. *)
Definition train_args_of (cfg : Config) (args : Args.Namespace) : train_args :=
  {| ims_per_gpu := cfg_ims_per_gpu cfg; scales := cfg_scales cfg;
     crop_size := cfg_crop_size cfg; max_iter := cfg_max_iter cfg;
     use_sync_bn := cfg_use_sync_bn cfg; num_aux_heads := cfg_num_aux_heads cfg;
     warmup_iters := cfg_warmup_iters cfg; use_fp16 := cfg_use_fp16 cfg;
     message_iters := cfg_message_iters cfg; checkpoint_iters := cfg_checkpoint_iters cfg;
     lr_start := cfg_lr_start cfg; optimizer_betas := cfg_optimizer_betas cfg;
     weight_decay := cfg_weight_decay cfg;
     log_path := Args.log_path args; im_root := Args.im_root args;
     val_im_anns := Args.val_im_anns args;
     false_analysis_path := Args.false_analysis_path args;
     train_im_anns := Args.train_im_anns args |}.

(** The [__main__] block after [args = parse_args()]. *)
Definition main_with_args (args : Args.Namespace) : M unit :=
  cfg <- with_open (Args.config_path args) (fun f => call (YamlLoad f));;
  call CudaEmptyCache;;;
  call (CudaSetDevice (Args.local_rank args));;;
  world_size <- call CudaDeviceCount;;
  call (DistInitProcessGroup "nccl" ("tcp://127.0.0.1:" ++ string_of_Z (Args.port args))%string
          world_size (Args.local_rank args));;;
  log_path_exists <- call (OsPathExists (Args.log_path args));;
  (if negb log_path_exists then call (OsMakedirs (Args.log_path args)) else ret tt);;;
  call (SetupLogger (Args.model args ++ "-train")%string (Args.log_path args));;;
  train args (train_args_of cfg args).


End Script.

(** ** Reading traces *)

Section Traces.
Context {V : Values}.

(** Did the external call of this event raise? *)
Definition failed (ev : event) : bool :=
  match ev with
  | Ev _ (inl _) => true
  | Ev _ (inr _) => false
  end.

(** The exception raised by the last failed call of a trace. *)
Fixpoint last_failure (t : list event) : option exn :=
  match t with
  | [] => None
  | Ev c r :: rest =>
      match last_failure rest with
      | Some e => Some e
      | None => match r with inl e => Some e | inr _ => None end
      end
  end.

(** The [__exit__] calls of the two [with] blocks. *)
Definition is_exit (ev : event) : bool :=
  match ev with
  | Ev c _ =>
      match c with
      | AutocastExit => true
      | FileExit _ => true
      | _ => false
      end
  end.

(** After a failed call nothing is called any more, except the
    [__exit__] of the [with] blocks the failure leaves. *)
Fixpoint no_recovery (t : list event) : bool :=
  match t with
  | [] => true
  | ev :: rest => if failed ev then forallb is_exit rest else no_recovery rest
  end.

Definition is_eval_model (ev : event) : bool :=
  match ev with Ev c _ => match c with EvalModel _ _ _ _ _ _ => true | _ => false end end.

Definition is_torch_save (ev : event) : bool :=
  match ev with Ev c _ => match c with TorchSave _ _ => true | _ => false end end.

Definition is_state_dict (ev : event) : bool :=
  match ev with Ev c _ => match c with StateDict _ => true | _ => false end end.

Definition is_get_next_file_name (ev : event) : bool :=
  match ev with Ev c _ => match c with GetNextFileName _ _ _ => true | _ => false end end.

Definition is_scheduler_step (ev : event) : bool :=
  match ev with Ev c _ => match c with SchedulerStep _ => true | _ => false end end.

Definition is_get_lr (ev : event) : bool :=
  match ev with Ev c _ => match c with SchedulerGetLr _ => true | _ => false end end.

Definition is_print_log_msg (ev : event) : bool :=
  match ev with Ev c _ => match c with PrintLogMsg _ _ _ _ _ _ _ => true | _ => false end end.

Definition is_criteria_call (ev : event) : bool :=
  match ev with Ev c _ => match c with CriteriaCall _ _ _ => true | _ => false end end.

Definition is_tensor_item (ev : event) : bool :=
  match ev with Ev c _ => match c with TensorItem _ => true | _ => false end end.

Definition is_avg_meter_update (ev : event) : bool :=
  match ev with Ev c _ => match c with AvgMeterUpdate _ _ => true | _ => false end end.

(** The calls of the mixed-precision machinery and of the computation
    it wraps: the autocast region, the forward pass, the losses, the
    gradient scaler and the backward pass. *)
Definition is_amp_step (ev : event) : bool :=
  match ev with
  | Ev c _ =>
      match c with
      | AutocastEnter _ | AutocastExit | NetCall _ _ | CriteriaCall _ _ _
      | ScalerScale _ _ | Backward _ | ScalerStep _ _ | ScalerUpdate _ => true
      | _ => false
      end
  end.

(** The calls that belong to evaluation and to saving weights. *)
Definition is_evaluation_or_save (ev : event) : bool :=
  (is_eval_model ev || is_get_next_file_name ev || is_state_dict ev || is_torch_save ev)%bool.

(** The flag of an [amp.autocast(enabled=...)] call. *)
Definition autocast_flag (ev : event) : option bool :=
  match ev with Ev c _ => match c with AutocastEnter b => Some b | _ => None end end.

(** The configuration a successful [yaml.load] returned. *)
Definition loaded_config (ev : event) : option Config :=
  match ev with
  | Ev c r =>
      match c in fcall R return exn + R -> option Config with
      | YamlLoad _ => fun r => match r with inr cfg => Some cfg | inl _ => None end
      | _ => fun _ => None
      end r
  end.

(** The parameter groups of a [torch.optim.Adam(...)] call. *)
Definition adam_groups (ev : event) : option (list param_group) :=
  match ev with Ev c _ => match c with NewAdam groups _ _ _ => Some groups | _ => None end end.


(** The weight decay a parameter group ends up with in the optimizer:
    PyTorch fills every key a group leaves out from the defaults given
    to the constructor. *)
Definition group_weight_decay (default_weight_decay : number) (g : param_group) : number :=
  match weight_decay_key g with
  | Some wd => wd
  | None => default_weight_decay
  end.

(** The events of the comprehension that computes the auxiliary losses:
    one [criteria(logits, label)] call per pair, answered by the loss. *)
Definition criteria_events (label : tensor) (pairs : list (obj * tensor)) (losses : list tensor)
  : list event :=
  map (fun '((criteria, logits), loss) => Ev (CriteriaCall criteria logits label) (inr loss))
      (combine pairs losses).

(** The events of the comprehension that updates the auxiliary meters:
    [loss.item()] and [metric.update(...)] per pair. *)
Definition meter_events (pairs : list (obj * tensor)) (items : list number) : list event :=
  flat_map (fun '((metric, loss), item) =>
              [Ev (TensorItem loss) (inr item); Ev (AvgMeterUpdate metric item) (inr tt)])
           (combine pairs items).



(** The calls of the training step proper: forward and backward pass,
    meters, log message and scheduler. *)
Definition is_training_step (ev : event) : bool :=
  (is_amp_step ev || is_criteria_call ev || is_tensor_item ev || is_avg_meter_update ev
   || is_scheduler_step ev || is_get_lr ev || is_print_log_msg ev)%bool.

(** The two parameter groups [get_optimizer] builds from the named
    parameters of the model. *)
Definition optimizer_groups (named_parameters : list (string * tensor)) : list param_group :=
  [ {| params := filter (fun p => (dim p =? 2) || (dim p =? 4))%bool (map snd named_parameters);
       weight_decay_key := None |};
    {| params := filter (fun p => dim p =? 1) (map snd named_parameters);
       weight_decay_key := Some (num_of_Z 0) |} ].

(** [sum(lr) / len(lr)]. *)
Definition arithmetic_mean (lr : list number) : number :=
  num_div (fold_left num_add lr (num_of_Z 0)) (num_of_Z (Z.of_nat (List.length lr))).




(** The calls of one iteration, block by block, when all of them
    return: moving the batch to the device and resetting the
    gradients; *)
Definition head_events (l : train_locals) (iteration : Z)
    (image label image1 label1 label2 : tensor) : list event :=
  [Ev (TensorCuda image) (inr image1); Ev (TensorCuda label) (inr label1)]
  ++ (if iteration =? 0 then [Ev (WriterAddGraph (writer l) (net l) image1) (inr tt)] else [])
  ++ [Ev (TorchSqueeze label1 1) (inr label2); Ev (ZeroGrad (optimizer l)) (inr tt)].

(** the autocast region; *)
Definition forward_events (k : train_args) (l : train_locals) (iteration : Z)
    (image label logits : tensor) (logits_aux : list tensor) (loss_pre : tensor)
    (loss_aux : list tensor) : list event :=
  [Ev (AutocastEnter (use_fp16 k)) (inr tt);
   Ev (NetCall (net l) image) (inr (logits :: logits_aux));
   Ev (CriteriaCall (criteria_pre l) logits label) (inr loss_pre)]
  ++ criteria_events label (combine (criteria_aux l) logits_aux) loss_aux
  ++ [Ev (WriterAddScalar (writer l) "Loss/train"
            (SVTensor (tensor_plus loss_pre (py_sum loss_aux))) iteration) (inr tt);
      Ev AutocastExit (inr tt)].

(** the scaled backward pass and the optimizer step; *)
Definition step_events (l : train_locals) (loss scaled : tensor) : list event :=
  [Ev (ScalerScale (scaler l) loss) (inr scaled);
   Ev (Backward scaled) (inr tt);
   Ev (ScalerStep (scaler l) (optimizer l)) (inr tt);
   Ev (ScalerUpdate (scaler l)) (inr tt);
   Ev CudaSynchronize (inr tt)].

(** the meters; *)
Definition meters_events (l : train_locals) (loss loss_pre : tensor) (loss_aux : list tensor)
    (loss_item loss_pre_item : number) (aux_items : list number) : list event :=
  [Ev (TimeMeterUpdate (time_meter l)) (inr tt);
   Ev (TensorItem loss) (inr loss_item);
   Ev (AvgMeterUpdate (loss_meter l) loss_item) (inr tt);
   Ev (TensorItem loss_pre) (inr loss_pre_item);
   Ev (AvgMeterUpdate (loss_pre_meter l) loss_pre_item) (inr tt)]
  ++ meter_events (combine (loss_aux_meters l) loss_aux) aux_items.

(** the training log message. *)
Definition message_events (k : train_args) (l : train_locals) (iteration : Z)
    (lr : list number) : list event :=
  [Ev (SchedulerGetLr (lr_scheduler l)) (inr lr);
   Ev (PrintLogMsg iteration (max_iter k) (arithmetic_mean lr) (time_meter l) (loss_meter l)
         (loss_pre_meter l) (loss_aux_meters l)) (inr tt)].

(** No [yaml.load] call, and any autocast region entered with the
    given flag. *)
Definition autocast_follows (flag : bool) (ev : event) : bool :=
  match ev with
  | Ev c _ =>
      match c with
      | YamlLoad _ => false
      | AutocastEnter b => Bool.eqb b flag
      | _ => true
      end
  end.

End Traces.

(** ** A small concrete framework

    Tensors and numbers are integers (a parameter tensor is its own
    dimension), framework objects are named by strings, and every call
    succeeds.  The world counts the calls made. *)
Module Toy.

#[local] Instance values : Values := {|
  tensor := Z;
  obj := string;
  number := Z;
  dim := fun t => t;
  tensor_add := Z.add;
  tensor_radd_int := Z.add;
  tensor_add_int := Z.add;
  num_of_Z := fun z => z;
  num_add := Z.add;
  num_div := Z.div;
  num_gt := Z.gtb
|}.

Record setup : Type := {
  config : Config;
  net_outputs : list Z;
  rank : Z;
  batches : list (Z * Z);
  mious : list Z;
  named_parameters : list (string * Z);
  learning_rates : list Z
}.

Definition args : Args.Namespace :=
  {| Args.local_rank := 0; Args.port := 44554; Args.model := "bisenetv2";
     Args.finetune_from := "best_model.pth"; Args.im_root := "data";
     Args.train_im_anns := "train.txt"; Args.val_im_anns := "val.txt";
     Args.log_path := "logs"; Args.false_analysis_path := "false_analysis";
     Args.tensorboard_path := "tensorboard"; Args.models_path := "models";
     Args.config_path := "main_cfg.yaml"; Args.amp := true |}.

Definition answer (s : setup) (R : Type) (c : fcall R) : R :=
  match c in fcall R return R with
  | TorchManualSeed _ | CudaManualSeed _ | NumpyRandomSeed _ | RandomSeed _ => tt
  | SetCudnnDeterministic _ => tt
  | ArgparseParse _ => args
  | OpenFile path => path
  | FileExit _ => tt
  | YamlLoad _ => config s
  | CudaEmptyCache => tt
  | CudaSetDevice _ => tt
  | CudaDeviceCount => 1
  | DistInitProcessGroup _ _ _ _ => tt
  | OsPathExists _ => true
  | OsMakedirs _ => tt
  | SetupLogger _ _ => tt
  | GetLogger => "logger"
  | GetNextDirName root_dir => (root_dir ++ "/0")%string
  | NewSummaryWriter _ => "writer"
  | DistIsInitialized => true
  | GetDataLoader _ _ _ _ _ _ _ _ => batches s
  | BuildModel name _ _ _ _ => name
  | NewSoftDiceLoss => "SoftDiceLoss"
  | NewGradScaler => "GradScaler"
  | NewWarmupPolyLrScheduler _ _ _ _ _ _ _ => "lr_scheduler"
  | NamedParameters _ => named_parameters s
  | NewAdam _ _ _ _ => "Adam"
  | NewTimeMeter _ => "time"
  | NewAvgMeter name => name
  | TensorCuda t => t
  | WriterAddGraph _ _ _ => tt
  | TorchSqueeze t _ => t
  | ZeroGrad _ => tt
  | AutocastEnter _ => tt
  | AutocastExit => tt
  | NetCall _ _ => net_outputs s
  | CriteriaCall _ logits _ => logits
  | WriterAddScalar _ _ _ _ => tt
  | ScalerScale _ loss => loss
  | Backward _ => tt
  | ScalerStep _ _ => tt
  | ScalerUpdate _ => tt
  | CudaSynchronize => tt
  | TimeMeterUpdate _ => tt
  | TensorItem t => t
  | AvgMeterUpdate _ _ => tt
  | SchedulerGetLr _ => learning_rates s
  | PrintLogMsg _ _ _ _ _ _ _ => tt
  | SchedulerStep _ => tt
  | WriterFlush _ => tt
  | WriterClose _ => tt
  | GetNextFileName dir prefix suffix => (dir ++ "/" ++ prefix ++ "0" ++ suffix)%string
  | LoggerInfo _ _ => tt
  | EvalModel _ _ _ _ _ _ => (["miou"], mious s)
  | Tabulate _ _ _ => "table"
  | StateDict net => (net ++ ".state_dict")%string
  | DistGetRank => rank s
  | TorchSave _ _ => tt
  end.

Definition framework (s : setup) : Framework := {|
  world := nat;
  handle := fun R c w => (S w, inr (answer s c))
|}.

(** A configuration with two auxiliary heads; a message and a
    checkpoint at every iteration. *)
Definition config2 : Config :=
  {| cfg_ims_per_gpu := 2; cfg_scales := [1; 2]; cfg_crop_size := (4, 4); cfg_max_iter := 2;
     cfg_use_sync_bn := false; cfg_num_aux_heads := 2; cfg_warmup_iters := 1;
     cfg_use_fp16 := true; cfg_message_iters := 1; cfg_checkpoint_iters := 1;
     cfg_lr_start := 1; cfg_optimizer_betas := (0, 1); cfg_weight_decay := 5 |}.

(** The network gives the main output and two auxiliary outputs. *)
Definition setup2 : setup :=
  {| config := config2; net_outputs := [10; 20; 30]; rank := 0; batches := [(1, 2); (3, 4)];
     mious := [7; 6; 5; 4];
     named_parameters := [("conv.weight", 4); ("bn.weight", 1); ("scalar", 0);
                          ("fc.weight", 2); ("conv3d.weight", 5); ("conv1d.weight", 3)];
     learning_rates := [2; 4] |}.


Definition locals2 : train_locals :=
  {| logger := "logger"; models_dir := "models/0"; writer := "writer"; net := "bisenetv2";
     criteria_pre := "SoftDiceLoss"; criteria_aux := ["SoftDiceLoss"; "SoftDiceLoss"];
     optimizer := "Adam"; scaler := "GradScaler"; time_meter := "time"; loss_meter := "loss";
     loss_pre_meter := "loss_prem"; loss_aux_meters := ["loss_aux0"; "loss_aux1"];
     lr_scheduler := "lr_scheduler" |}.

Definition kwargs : train_args := train_args_of config2 args.

(** The first iteration of the loop, on the batch [(1, 2)], from the
    initial [best_score]. *)
Definition first_iteration (s : setup) : result (F := framework s) number :=
  train_iteration (F := framework s) kwargs locals2 0 (1, 2) 0 0%nat.

Definition args_without_amp : Args.Namespace :=
  {| Args.local_rank := 0; Args.port := 44554; Args.model := "bisenetv2";
     Args.finetune_from := "best_model.pth"; Args.im_root := "data";
     Args.train_im_anns := "train.txt"; Args.val_im_anns := "val.txt";
     Args.log_path := "logs"; Args.false_analysis_path := "false_analysis";
     Args.tensorboard_path := "tensorboard"; Args.models_path := "models";
     Args.config_path := "main_cfg.yaml"; Args.amp := false |}.

End Toy.

(** Two namespaces that agree on every attribute but [amp]. *)
Definition same_but_amp (a b : Args.Namespace) : Prop :=
  Args.local_rank a = Args.local_rank b
  /\ Args.port a = Args.port b
  /\ Args.model a = Args.model b
  /\ Args.finetune_from a = Args.finetune_from b
  /\ Args.im_root a = Args.im_root b
  /\ Args.train_im_anns a = Args.train_im_anns b
  /\ Args.val_im_anns a = Args.val_im_anns b
  /\ Args.log_path a = Args.log_path b
  /\ Args.false_analysis_path a = Args.false_analysis_path b
  /\ Args.tensorboard_path a = Args.tensorboard_path b
  /\ Args.models_path a = Args.models_path b
  /\ Args.config_path a = Args.config_path b.

(** ** What holds of every run *)

Section Invariants.
Context {V : Values} {F : Framework}.

(** Every call the function makes satisfies [P], however the run ends. *)
Definition always (P : event -> bool) {A : Type} (m : M A) : Prop :=
  forall w, forallb P (trace (m w)) = true.

(** Exceptions propagate in a run: after a failed call only [__exit__]
    calls follow, and the exception of the last failed call is the
    outcome of the run. *)
Definition propagated {A : Type} (r : result A) : Prop :=
  no_recovery (trace r) = true
  /\ (forall e, last_failure (trace r) = Some e -> outcome r = inl e).


(** The trace of an iteration holds a run of [save_evaluation_log]
    followed by a run of [save_checkpoint], just before the scheduler
    step. *)
Definition evaluated_and_saved (k : train_args) (l : train_locals) (iteration : Z)
    (best_score best' : number) (t : list event) : Prop :=
  exists before t_eval t_save w1 w2 w3,
    t = before ++ t_eval ++ t_save ++ [Ev (SchedulerStep (lr_scheduler l)) (inr tt)]
    /\ save_evaluation_log (models_dir l) (logger l) (net l) (writer l) iteration best_score
         (ims_per_gpu k) (crop_size k) (log_path k) (im_root k) (val_im_anns k)
         (false_analysis_path k) (train_im_anns k) w1
       = mkResult t_eval w2 (inr best')
    /\ save_checkpoint (models_dir l) (net l) w2 = mkResult t_save w3 (inr tt).

End Invariants.

(** * Properties *)

Section Runs.
Context {V : Values} {F : Framework}.

(** ** Runs that return *)

Lemma ret_normal (A : Type) (a b : A) w t w' :
  ret a w = mkResult t w' (inr b) -> t = [] /\ w' = w /\ b = a.
Proof. unfold ret. intros H. inversion H. auto. Qed.

Lemma raise_normal (A : Type) (e : exn) w t w' (b : A) :
  raise e w = mkResult t w' (inr b) -> False.
Proof. unfold raise. intros H. discriminate H. Qed.

Lemma call_normal (R : Type) (c : fcall R) w t w' (r : R) :
  call c w = mkResult t w' (inr r) ->
  handle c w = (w', inr r) /\ t = [Ev c (inr r)].
Proof.
  unfold call. destruct (handle c w) as [w1 r1]. intros H.
  inversion H. subst. auto.
Qed.

Lemma bind_normal (A B : Type) (m : M A) (f : A -> M B) w t w' (b : B) :
  bind m f w = mkResult t w' (inr b) ->
  exists t1 w1 a t2,
    m w = mkResult t1 w1 (inr a) /\ f a w1 = mkResult t2 w' (inr b) /\ t = t1 ++ t2.
Proof.
  unfold bind. destruct (m w) as [t1 w1 [e | a]]; intros H.
  - discriminate H.
  - destruct (f a w1) as [t2 w2 o] eqn:Ef. simpl in H. inversion H. subst.
    exists t1, w1, a, t2. auto.
Qed.

Lemma finally_normal (A : Type) (body : M A) (cleanup : M unit) w t w' (a : A) :
  finally body cleanup w = mkResult t w' (inr a) ->
  exists t1 w1 t2,
    body w = mkResult t1 w1 (inr a) /\ cleanup w1 = mkResult t2 w' (inr tt) /\ t = t1 ++ t2.
Proof.
  unfold finally. destruct (body w) as [t1 w1 o].
  destruct (cleanup w1) as [t2 w2 [e2 | []]] eqn:Ec; intros H.
  - discriminate H.
  - inversion H. subst. exists t1, w1, t2. auto.
Qed.

Lemma py_mod_normal a b w t w' r :
  py_mod a b w = mkResult t w' (inr r) -> b <> 0 /\ r = a mod b /\ t = [] /\ w' = w.
Proof.
  unfold py_mod. destruct (Z.eqb_spec b 0) as [Hb | Hb]; intros H.
  - exfalso. eapply raise_normal. exact H.
  - apply ret_normal in H. destruct H as (Ht & Hw & Hr). auto.
Qed.

Lemma py_mean_normal lr w t w' r :
  py_mean lr w = mkResult t w' (inr r) ->
  lr <> [] /\ r = arithmetic_mean lr /\ t = [] /\ w' = w.
Proof.
  unfold py_mean. destruct lr as [| x xs]; intros H.
  - exfalso. eapply raise_normal. exact H.
  - apply ret_normal in H. destruct H as (Ht & Hw & Hr).
    repeat split; auto. discriminate.
Qed.

End Runs.

(** One step of taking a returning run apart. *)
Ltac run_step :=
  match goal with
  | H : bind _ _ _ = mkResult _ _ (inr _) |- _ =>
      apply bind_normal in H;
      let t1 := fresh "t" in let w1 := fresh "w" in let a := fresh "a" in
      let t2 := fresh "t" in let H1 := fresh "Hrun" in let Ht := fresh "Ht" in
      destruct H as (t1 & w1 & a & t2 & H1 & H & Ht); cbv beta in H
  | H : call _ _ = mkResult _ _ (inr _) |- _ =>
      apply call_normal in H;
      let Ht := fresh "Ht" in let Hc := fresh "Hcall" in
      destruct H as (Hc & Ht)
  | H : ret _ _ = mkResult _ _ (inr _) |- _ =>
      apply ret_normal in H;
      let Ht := fresh "Ht" in let Hw := fresh "Hw" in let Ha := fresh "Ha" in
      destruct H as (Ht & Hw & Ha)
  | H : raise _ _ = mkResult _ _ (inr _) |- _ =>
      exfalso; exact (raise_normal H)
  | H : finally _ _ _ = mkResult _ _ (inr _) |- _ =>
      apply finally_normal in H;
      let t1 := fresh "t" in let w1 := fresh "w" in
      let t2 := fresh "t" in let H1 := fresh "Hrun" in let Ht := fresh "Ht" in
      destruct H as (t1 & w1 & t2 & H1 & H & Ht)
  | H : py_mod _ _ _ = mkResult _ _ (inr _) |- _ =>
      apply py_mod_normal in H;
      let Hb := fresh "Hnz" in let Hr := fresh "Hrem" in
      let Ht := fresh "Ht" in let Hw := fresh "Hw" in
      destruct H as (Hb & Hr & Ht & Hw)
  | H : py_mean _ _ = mkResult _ _ (inr _) |- _ =>
      apply py_mean_normal in H;
      let Hb := fresh "Hne" in let Hr := fresh "Hmean" in
      let Ht := fresh "Ht" in let Hw := fresh "Hw" in
      destruct H as (Hb & Hr & Ht & Hw)
  | H : (if ?b then _ else _) _ = mkResult _ _ (inr _) |- _ => destruct b eqn:?
  | H : (let '(_, _) := ?x in _) _ = mkResult _ _ (inr _) |- _ => destruct x
  | H : (match ?x with _ => _ end) _ = mkResult _ _ (inr _) |- _ => destruct x
  end.

Section Comprehensions.
Context {V : Values} {F : Framework}.

(** The comprehension of the auxiliary losses. *)
Lemma aux_losses_normal label pairs w t w' losses :
  mapM (fun '(criteria, logits) => call (CriteriaCall criteria logits label)) pairs w
    = mkResult t w' (inr losses) ->
  t = criteria_events label pairs losses /\ List.length losses = List.length pairs.
Proof.
  revert w t losses. induction pairs as [| [criteria logits] pairs IH]; intros w t losses H.
  - simpl in H. run_step. subst. split; reflexivity.
  - simpl in H. repeat run_step. subst.
    match goal with
    | Hrest : mapM _ pairs _ = _ |- _ => destruct (IH _ _ _ Hrest) as (Ht' & Hlen)
    end.
    subst. split.
    + unfold criteria_events. simpl. rewrite app_nil_r. reflexivity.
    + simpl. rewrite Hlen. reflexivity.
Qed.

(** The comprehension that updates the auxiliary meters. *)
Lemma aux_meters_normal pairs w t w' units :
  mapM (fun '(metric, loss) =>
          item <- call (TensorItem loss);;
          call (AvgMeterUpdate metric item)) pairs w
    = mkResult t w' (inr units) ->
  exists items, t = meter_events pairs items /\ List.length items = List.length pairs.
Proof.
  revert w t units. induction pairs as [| [metric loss] pairs IH]; intros w t units H.
  - simpl in H. run_step. subst. exists []. split; reflexivity.
  - simpl in H. repeat run_step. subst.
    repeat match goal with u : unit |- _ => destruct u end.
    match goal with
    | Hrest : mapM _ pairs _ = _ |- _ => destruct (IH _ _ _ Hrest) as (items & Ht' & Hlen)
    end.
    subst. eexists (_ :: items). split.
    + unfold meter_events. simpl. rewrite app_nil_r. reflexivity.
    + simpl. rewrite Hlen. reflexivity.
Qed.

End Comprehensions.

Section Iteration.
Context {V : Values} {F : Framework}.

(** A completed iteration, call by call. *)
Lemma train_iteration_normal k l iteration image label best_score w t w' best' :
  train_iteration k l iteration (image, label) best_score w = mkResult t w' (inr best') ->
  exists image1 label1 label2 logits logits_aux loss_pre loss_aux scaled
         loss_item loss_pre_item aux_items lr t_eval t_save w1 w2 w3,
    t = head_events l iteration image label image1 label1 label2
        ++ forward_events k l iteration image1 label2 logits logits_aux loss_pre loss_aux
        ++ step_events l (tensor_plus loss_pre (py_sum loss_aux)) scaled
        ++ meters_events l (tensor_plus loss_pre (py_sum loss_aux)) loss_pre loss_aux
             loss_item loss_pre_item aux_items
        ++ (if (iteration + 1) mod message_iters k =? 0
            then message_events k l iteration lr else [])
        ++ (if (iteration + 1) mod checkpoint_iters k =? 0 then t_eval ++ t_save else [])
        ++ [Ev (SchedulerStep (lr_scheduler l)) (inr tt)]
    /\ List.length loss_aux = List.length (combine (criteria_aux l) logits_aux)
    /\ List.length aux_items = List.length (combine (loss_aux_meters l) loss_aux)
    /\ message_iters k <> 0
    /\ checkpoint_iters k <> 0
    /\ (if (iteration + 1) mod checkpoint_iters k =? 0
        then save_evaluation_log (models_dir l) (logger l) (net l) (writer l) iteration
               best_score (ims_per_gpu k) (crop_size k) (log_path k) (im_root k)
               (val_im_anns k) (false_analysis_path k) (train_im_anns k) w1
             = mkResult t_eval w2 (inr best')
             /\ save_checkpoint (models_dir l) (net l) w2 = mkResult t_save w3 (inr tt)
        else best' = best_score).
Proof.
  intros H.
  unfold train_iteration, with_autocast, forward_and_losses in H.
  repeat run_step.
  all: repeat match goal with Hp : (_, _) = (_, _) |- _ => inversion Hp; clear Hp end.
  all: subst.
  all: repeat match goal with u : unit |- _ => destruct u end.
  all: repeat match goal with
         | Hm : mapM (fun '(criteria, logits) => call (CriteriaCall _ _ _)) _ _ = _ |- _ =>
             apply aux_losses_normal in Hm; destruct Hm as (? & ?)
         | Hm : mapM _ (combine (loss_aux_meters _) _) _ = _ |- _ =>
             apply aux_meters_normal in Hm; destruct Hm as (? & ? & ?)
         end.
  all: subst.
  all: match goal with
       | H3 : handle (TorchSqueeze ?label1 _) _ = (_, inr ?label2),
         H4 : handle (NetCall _ ?image1) _ = (_, inr (?logits :: ?logits_aux)),
         H5 : handle (CriteriaCall (criteria_pre _) _ _) _ = (_, inr ?loss_pre),
         H6 : handle (ScalerScale _ (tensor_plus _ (py_sum ?loss_aux))) _ = (_, inr ?scaled),
         H7 : handle (TensorItem (tensor_plus _ _)) _ = (_, inr ?loss_item),
         H8 : handle (AvgMeterUpdate (loss_pre_meter _) ?loss_pre_item) _ = _,
         H9 : List.length ?aux_items = List.length (combine (loss_aux_meters _) _) |- _ =>
           exists image1, label1, label2, logits, logits_aux, loss_pre, loss_aux, scaled,
                  loss_item, loss_pre_item, aux_items
       end.
  all: first [ match goal with
               | H : handle (SchedulerGetLr _) _ = (_, inr ?lr) |- _ => exists lr
               end
             | exists [] ].
  all: first [ match goal with
               | H1 : save_evaluation_log _ _ _ _ _ _ _ _ _ _ _ _ _ ?w1 = mkResult ?t_eval ?w2 _,
                 H2 : save_checkpoint _ _ _ = mkResult ?t_save ?w3 _ |- _ =>
                   exists t_eval, t_save, w1, w2, w3
               end
             | match goal with w0 : world |- _ => exists [], [], w0, w0, w0 end ].
  all: unfold head_events, forward_events, step_events, meters_events, message_events.
  all: repeat match goal with
         | Hc : ?c = _ |- context [if ?c then _ else _] => rewrite Hc
         end.
  all: (split; [ rewrite <- ?app_assoc; cbn [app]; reflexivity | ]).
  all: repeat split; eauto.
Qed.
End Iteration.

(** ** Properties of all the calls of a run *)

Section Always.
Context {V : Values} {F : Framework}.
Variable P : event -> bool.

Lemma always_ret (A : Type) (a : A) : always P (ret a).
Proof. intros w. reflexivity. Qed.

Lemma always_raise (A : Type) (e : exn) : always P (raise (A := A) e).
Proof. intros w. reflexivity. Qed.

Lemma always_call (R : Type) (c : fcall R) :
  (forall r, P (Ev c r) = true) -> always P (call c).
Proof.
  intros Hc w. unfold call. destruct (handle c w) as [w1 r]. simpl.
  rewrite Hc. reflexivity.
Qed.

Lemma always_bind (A B : Type) (m : M A) (f : A -> M B) :
  always P m -> (forall a, always P (f a)) -> always P (bind m f).
Proof.
  intros Hm Hf w. unfold bind. specialize (Hm w).
  destruct (m w) as [t w1 [e | a]]; simpl in *.
  - exact Hm.
  - specialize (Hf a w1). destruct (f a w1) as [t2 w2 o]. simpl in *.
    rewrite forallb_app, Hm, Hf. reflexivity.
Qed.

Lemma always_finally (A : Type) (body : M A) (cleanup : M unit) :
  always P body -> always P cleanup -> always P (finally body cleanup).
Proof.
  intros Hb Hc w. unfold finally. specialize (Hb w).
  destruct (body w) as [t w1 o]. specialize (Hc w1).
  destruct (cleanup w1) as [t2 w2 [e2 | u]]; simpl in *;
    rewrite forallb_app, Hb, Hc; reflexivity.
Qed.

Lemma always_mapM (A B : Type) (f : A -> M B) (l : list A) :
  (forall x, always P (f x)) -> always P (mapM f l).
Proof.
  intros Hf. induction l as [| x xs IH]; simpl.
  - apply always_ret.
  - apply always_bind; [apply Hf |]. intros y.
    apply always_bind; [apply IH |]. intros ys. apply always_ret.
Qed.

Lemma always_for (A S : Type) (body : Z -> A -> S -> M S) (l : list A) :
  (forall i x s, always P (body i x s)) ->
  forall i s, always P (for_enumerate body l i s).
Proof.
  intros Hb. induction l as [| x xs IH]; intros i s; simpl.
  - apply always_ret.
  - apply always_bind; [apply Hb |]. intros s1. apply IH.
Qed.

Lemma always_py_mod a b : always P (py_mod a b).
Proof. unfold py_mod. destruct (b =? 0); [apply always_raise | apply always_ret]. Qed.

Lemma always_bind_py_mod (B : Type) a b (f : Z -> M B) :
  (b <> 0 -> always P (f (a mod b))) -> always P (bind (py_mod a b) f).
Proof.
  intros H w. unfold bind, py_mod. destruct (Z.eqb_spec b 0) as [Hb | Hb]; simpl.
  - reflexivity.
  - specialize (H Hb w). destruct (f (a mod b) w) as [t2 w2 o]. exact H.
Qed.

Lemma always_py_mean lr : always P (py_mean lr).
Proof. unfold py_mean. destruct lr; [apply always_raise | apply always_ret]. Qed.

End Always.

(** Goes through a function of the script call by call. *)
Ltac always_step :=
  first
    [ apply always_ret
    | apply always_raise
    | apply always_py_mod
    | apply always_py_mean
    | apply always_call; intros; reflexivity
    | apply always_bind_py_mod; intros ?
    | apply always_bind; [| intros ?]
    | apply always_finally
    | apply always_mapM; intros ?
    | apply always_for; intros ? ? ?
    | match goal with
      | |- always _ (if ?b then _ else _) => destruct b eqn:?
      | |- always _ (match ?x with _ => _ end) => destruct x
      end ].

Ltac always_tac := repeat always_step.

(** Settles a fact about the kind of a call by going through the calls. *)
Ltac by_call := intros [R c r]; destruct c; simpl; intros; congruence.

Section AlwaysScript.
Context {V : Values} {F : Framework}.

(** Evaluation and saving make no call of the training step. *)
Lemma save_evaluation_log_not_training models_dir logger net writer iteration best_score
    ims_per_gpu crop_size log_path im_root val_im_anns false_analysis_path train_im_anns :
  always (fun ev => negb (is_training_step ev))
         (save_evaluation_log models_dir logger net writer iteration best_score ims_per_gpu
            crop_size log_path im_root val_im_anns false_analysis_path train_im_anns).
Proof. unfold save_evaluation_log, log_ious, save_best_model. always_tac. Qed.

Lemma save_checkpoint_not_training models_dir net :
  always (fun ev => negb (is_training_step ev)) (save_checkpoint models_dir net).
Proof. unfold save_checkpoint. always_tac. Qed.

(** Between checkpoints an iteration neither evaluates nor saves,
    however it ends. *)
Lemma no_evaluation_between_checkpoints k l iteration batch best_score :
  ~ (checkpoint_iters k | iteration + 1) ->
  always (fun ev => negb (is_evaluation_or_save ev))
         (train_iteration k l iteration batch best_score).
Proof.
  intros Hnd. destruct batch as [image label].
  unfold train_iteration, with_autocast, forward_and_losses.
  always_tac.
  all: exfalso; apply Hnd.
  all: match goal with
       | Hnz : checkpoint_iters _ <> 0, Heq : (_ mod checkpoint_iters _ =? 0) = true |- _ =>
           apply Z.eqb_eq in Heq; apply Z.mod_divide; assumption
       end.
Qed.

End AlwaysScript.

(** ** Lists of events *)

Section Lists.
Context {V : Values}.

Lemma filter_none (P Q : event -> bool) (t : list event) :
  (forall ev, Q ev = true -> P ev = false) ->
  forallb Q t = true -> filter P t = [].
Proof.
  intros HPQ. induction t as [| ev t IH]; simpl; intros H.
  - reflexivity.
  - apply andb_true_iff in H. destruct H as (Hev & Ht).
    rewrite (HPQ ev Hev). apply IH. exact Ht.
Qed.

Lemma filter_all (P : event -> bool) (t : list event) :
  forallb P t = true -> filter P t = t.
Proof.
  induction t as [| ev t IH]; simpl; intros H.
  - reflexivity.
  - apply andb_true_iff in H. destruct H as (Hev & Ht).
    rewrite Hev, (IH Ht). reflexivity.
Qed.

Lemma criteria_events_all label pairs losses :
  forallb is_criteria_call (criteria_events label pairs losses) = true.
Proof.
  unfold criteria_events.
  induction (combine pairs losses) as [| [[criteria logits] loss] rest IH]; simpl; auto.
Qed.

Lemma meter_events_all pairs items :
  forallb (fun ev => is_tensor_item ev || is_avg_meter_update ev)%bool
          (meter_events pairs items) = true.
Proof.
  unfold meter_events.
  induction (combine pairs items) as [| [[metric loss] item] rest IH]; simpl; auto.
Qed.

Lemma classify_parameters named wd_params non_wd_params :
  fold_left classify_parameter named (wd_params, non_wd_params)
  = (wd_params ++ filter (fun p => (dim p =? 2) || (dim p =? 4))%bool (map snd named),
     non_wd_params ++ filter (fun p => dim p =? 1) (map snd named)).
Proof.
  revert wd_params non_wd_params.
  induction named as [| [name param] named IH]; intros wd_params non_wd_params; simpl.
  - rewrite !app_nil_r. reflexivity.
  - destruct (Z.eqb_spec (dim param) 1) as [H1 | H1].
    + rewrite IH. rewrite H1. simpl. rewrite <- app_assoc. reflexivity.
    + destruct ((dim param =? 2) || (dim param =? 4))%bool.
      * rewrite IH. rewrite <- app_assoc. reflexivity.
      * rewrite IH. reflexivity.
Qed.

End Lists.

(** ** Saving weights *)

Section Saving.
Context {V : Values} {F : Framework}.

Lemma save_checkpoint_normal models_dir net w t w' u :
  save_checkpoint models_dir net w = mkResult t w' (inr u) ->
  exists save_pth state rank,
    t = [Ev (GetNextFileName models_dir "model_final_" ".pth") (inr save_pth);
         Ev (StateDict net) (inr state);
         Ev DistGetRank (inr rank)]
        ++ (if rank =? 0 then [Ev (TorchSave state save_pth) (inr tt)] else []).
Proof.
  intros H. unfold save_checkpoint in H. repeat run_step.
  all: subst.
  all: repeat match goal with x : unit |- _ => destruct x end.
  all: match goal with
       | H1 : handle (GetNextFileName _ _ _) _ = (_, inr ?p),
         H2 : handle (StateDict _) _ = (_, inr ?s),
         H3 : handle DistGetRank _ = (_, inr ?r) |- _ => exists p, s, r
       end.
  all: match goal with Hc : (_ =? 0) = _ |- _ => rewrite Hc end.
  all: reflexivity.
Qed.

(** C2.  [save_checkpoint] asks [get_next_file_name] for a path in
    [models_dir] with prefix [model_final_] and suffix [.pth], takes
    [net.module.state_dict()], and writes that state to that path when
    the rank of the process is 0 and only then: with the three calls
    answered, the run is these calls followed by the [torch.save] on
    rank 0 and by nothing on any other rank; and in any run at all, a
    [torch.save] event is the save of the state returned to the path
    returned, after [dist.get_rank()] answered 0. *)
Theorem save_checkpoint_rank_0 models_dir net w :
  let next_name := GetNextFileName models_dir "model_final_" ".pth" in
  (forall w1 save_pth w2 state w3 rank,
      handle next_name w = (w1, inr save_pth) ->
      handle (StateDict net) w1 = (w2, inr state) ->
      handle DistGetRank w2 = (w3, inr rank) ->
      trace (save_checkpoint models_dir net w)
      = [Ev next_name (inr save_pth); Ev (StateDict net) (inr state); Ev DistGetRank (inr rank)]
        ++ (if rank =? 0
            then [Ev (TorchSave state save_pth) (snd (handle (TorchSave state save_pth) w3))]
            else []))
  /\ (forall ev,
         In ev (trace (save_checkpoint models_dir net w)) -> is_torch_save ev = true ->
         exists w1 save_pth w2 state w3 answer,
           handle next_name w = (w1, inr save_pth)
           /\ handle (StateDict net) w1 = (w2, inr state)
           /\ handle DistGetRank w2 = (w3, inr 0)
           /\ ev = Ev (TorchSave state save_pth) answer).
Proof.
  intros next_name. subst next_name. split.
  - intros w1 save_pth w2 state w3 rank H1 H2 H3.
    unfold save_checkpoint, bind, call. rewrite H1. simpl. rewrite H2. simpl.
    rewrite H3. simpl. destruct (rank =? 0).
    + unfold call. destruct (handle (TorchSave state save_pth) w3) as [w4 r]. reflexivity.
    + reflexivity.
  - intros ev Hin Hsave.
    unfold save_checkpoint, bind, call in Hin.
    destruct (handle (GetNextFileName models_dir "model_final_" ".pth") w)
      as [w1 [e1 | save_pth]] eqn:H1; simpl in Hin.
    { destruct Hin as [<- | []]. discriminate Hsave. }
    destruct (handle (StateDict net) w1) as [w2 [e2 | state]] eqn:H2; simpl in Hin.
    { destruct Hin as [<- | [<- | []]]; discriminate Hsave. }
    destruct (handle DistGetRank w2) as [w3 [e3 | rank]] eqn:H3; simpl in Hin.
    { destruct Hin as [<- | [<- | [<- | []]]]; discriminate Hsave. }
    destruct (Z.eqb_spec rank 0) as [-> | Hrank].
    + unfold call in Hin.
      destruct (handle (TorchSave state save_pth) w3) as [w4 answer] eqn:H4. simpl in Hin.
      destruct Hin as [<- | [<- | [<- | [<- | []]]]]; try discriminate Hsave.
      exists w1, save_pth, w2, state, w3, answer. auto.
    + simpl in Hin.
      destruct Hin as [<- | [<- | [<- | []]]]; discriminate Hsave.
Qed.

(** C5.  With the named parameters of the model at hand,
    [get_optimizer] makes one more call: [torch.optim.Adam] on exactly
    two parameter groups, the parameters of dimension 2 or 4 without a
    weight decay of their own (so the caller's [weight_decay], the
    default of the constructor, applies to them) and the parameters of
    dimension 1 with weight decay 0, with [lr_start] and
    [optimizer_betas]; what the constructor answers is what
    [get_optimizer] returns. *)
Theorem get_optimizer_two_groups net lr_start optimizer_betas weight_decay w w1 named :
  handle (NamedParameters net) w = (w1, inr named) ->
  let adam := NewAdam (optimizer_groups named) lr_start optimizer_betas weight_decay in
  let r := get_optimizer net lr_start optimizer_betas weight_decay w in
  trace r = [Ev (NamedParameters net) (inr named); Ev adam (snd (handle adam w1))]
  /\ outcome r = snd (handle adam w1)
  /\ map (group_weight_decay weight_decay) (optimizer_groups named)
     = [weight_decay; num_of_Z 0]
  /\ (forall p, In p (map snd named) ->
        (In p (params (nth 0 (optimizer_groups named) {| params := []; weight_decay_key := None |}))
         <-> dim p = 2 \/ dim p = 4)
        /\ (In p (params (nth 1 (optimizer_groups named) {| params := []; weight_decay_key := None |}))
            <-> dim p = 1)).
Proof.
  intros Hnamed adam r. subst adam r.
  unfold get_optimizer, bind, call. rewrite Hnamed. simpl.
  rewrite classify_parameters. simpl.
  fold (optimizer_groups named).
  destruct (handle (NewAdam (optimizer_groups named) lr_start optimizer_betas weight_decay) w1)
    as [w2 answer].
  simpl. repeat split; try reflexivity.
  - intros Hin. simpl in Hin. apply filter_In in Hin. destruct Hin as (_ & Hd).
    apply orb_true_iff in Hd. destruct Hd as [Hd | Hd]; apply Z.eqb_eq in Hd; auto.
  - intros Hd. simpl. apply filter_In. split; [assumption |].
    apply orb_true_iff. destruct Hd as [Hd | Hd]; [left | right]; apply Z.eqb_eq; exact Hd.
  - intros Hin. simpl in Hin. apply filter_In in Hin. destruct Hin as (_ & Hd).
    apply Z.eqb_eq in Hd. exact Hd.
  - intros Hd. simpl. apply filter_In. split; [assumption |]. apply Z.eqb_eq. exact Hd.
Qed.

(** C8.  A parameter whose dimension is neither 1, 2 nor 4 is in
    neither parameter group: whatever [torch.optim.Adam] call a run of
    [get_optimizer] makes, none of its groups holds the parameter. *)
Theorem get_optimizer_skips_other_dims net lr_start optimizer_betas weight_decay w p :
  dim p <> 1 -> dim p <> 2 -> dim p <> 4 ->
  forall ev groups,
    In ev (trace (get_optimizer net lr_start optimizer_betas weight_decay w)) ->
    adam_groups ev = Some groups ->
    Forall (fun g => ~ In p (params g)) groups.
Proof.
  intros H1 H2 H4 ev groups Hin Hgroups.
  unfold get_optimizer, bind, call in Hin.
  destruct (handle (NamedParameters net) w) as [w1 [e | named]]; simpl in Hin.
  - destruct Hin as [<- | []]. discriminate Hgroups.
  - rewrite classify_parameters in Hin. simpl in Hin.
    match type of Hin with
    | context [handle ?c ?w0] => destruct (handle c w0) as [w2 answer]
    end.
    simpl in Hin. destruct Hin as [<- | [<- | []]]; [discriminate Hgroups |].
    simpl in Hgroups. injection Hgroups as <-.
    repeat constructor; simpl; intros Hp; apply filter_In in Hp; destruct Hp as (_ & Hd).
    + apply orb_true_iff in Hd. destruct Hd as [Hd | Hd]; apply Z.eqb_eq in Hd; contradiction.
    + apply Z.eqb_eq in Hd. contradiction.
Qed.

End Saving.

(** ** Evaluation *)

Section Evaluation.
Context {V : Values} {F : Framework}.


(** A completed [save_evaluation_log]: the validation set is evaluated
    first, and the first entry of its mIOU list is the score handed to
    [save_best_model]. *)
Lemma save_evaluation_log_normal models_dir logger net writer iteration best_score
    ims_per_gpu crop_size log_path im_root val_im_anns false_analysis_path train_im_anns
    w t w' best' :
  save_evaluation_log models_dir logger net writer iteration best_score ims_per_gpu
    crop_size log_path im_root val_im_anns false_analysis_path train_im_anns w
  = mkResult t w' (inr best') ->
  exists log_pth message heads_val cur_score others t_rest t_best w1 w2,
    t = [Ev (GetNextFileName log_path "model_final_" ".pth") (inr log_pth);
         Ev (LoggerInfo logger message) (inr tt);
         Ev CudaEmptyCache (inr tt);
         Ev (EvalModel net ims_per_gpu im_root val_im_anns crop_size false_analysis_path)
            (inr (heads_val, cur_score :: others))]
        ++ t_rest ++ t_best
    /\ save_best_model cur_score best_score models_dir net w1 = mkResult t_best w2 (inr best').
Proof.
  intros H. unfold save_evaluation_log in H.
  repeat run_step.
  subst.
  repeat match goal with x : unit |- _ => destruct x end.
  match goal with
  | H1 : handle (GetNextFileName _ _ _) _ = (_, inr ?p),
    H2 : handle (LoggerInfo _ ?m) _ = _,
    H4 : log_ious _ (?c :: ?o) _ ?h _ "val" _ = mkResult ?t1 _ _,
    H6 : log_ious _ ?m2 _ ?h2 _ "train" _ = mkResult ?t2 _ _,
    H7 : save_best_model _ _ _ _ ?w1 = mkResult ?tb ?w2 _ |- _ =>
      exists p, m, h, c, o,
        (t1 ++ [Ev (EvalModel net ims_per_gpu im_root train_im_anns crop_size
                      false_analysis_path) (inr (h2, m2))] ++ t2), tb, w1, w2
  end.
  split; [ rewrite <- ?app_assoc; cbn [app]; reflexivity | assumption ].
Qed.

Lemma save_evaluation_log_evaluates models_dir logger net writer iteration best_score
    ims_per_gpu crop_size log_path im_root val_im_anns false_analysis_path train_im_anns
    w t w' best' :
  save_evaluation_log models_dir logger net writer iteration best_score ims_per_gpu
    crop_size log_path im_root val_im_anns false_analysis_path train_im_anns w
  = mkResult t w' (inr best') ->
  existsb is_eval_model t = true.
Proof.
  intros H. apply save_evaluation_log_normal in H.
  destruct H as (log_pth & message & heads_val & cur_score & others & t_rest & t_best
                 & w1 & w2 & Ht & _).
  subst t. reflexivity.
Qed.

End Evaluation.

(** ** The training loop *)

Section Loop.
Context {V : Values} {F : Framework}.

Lemma forallb_existsb_disjoint (P Q : event -> bool) (t : list event) :
  (forall ev, Q ev = true -> P ev = false) ->
  forallb P t = true -> existsb Q t = true -> False.
Proof.
  intros HPQ. induction t as [| ev t IH]; simpl; intros HP HQ.
  - discriminate HQ.
  - apply andb_true_iff in HP. destruct HP as (Hev & Ht).
    apply orb_true_iff in HQ. destruct HQ as [HQ | HQ].
    + rewrite (HPQ ev HQ) in Hev. discriminate Hev.
    + exact (IH Ht HQ).
Qed.

(** The calls of evaluation and saving in a completed iteration are
    invisible to a filter that selects calls of the training step. *)
Lemma checkpoint_part_filtered (P : event -> bool) k l iteration best_score best'
    w1 w2 w3 t_eval t_save :
  (forall ev, negb (is_training_step ev) = true -> P ev = false) ->
  save_evaluation_log (models_dir l) (logger l) (net l) (writer l) iteration best_score
    (ims_per_gpu k) (crop_size k) (log_path k) (im_root k) (val_im_anns k)
    (false_analysis_path k) (train_im_anns k) w1
  = mkResult t_eval w2 (inr best') ->
  save_checkpoint (models_dir l) (net l) w2 = mkResult t_save w3 (inr tt) ->
  filter P (t_eval ++ t_save) = [].
Proof.
  intros HP He Hs. rewrite filter_app.
  pose proof (save_evaluation_log_not_training (models_dir l) (logger l) (net l) (writer l)
                iteration best_score (ims_per_gpu k) (crop_size k) (log_path k) (im_root k)
                (val_im_anns k) (false_analysis_path k) (train_im_anns k) w1) as Ae.
  pose proof (save_checkpoint_not_training (models_dir l) (net l) w2) as As.
  rewrite He in Ae. rewrite Hs in As. simpl in Ae, As.
  rewrite (filter_none P _ _ HP Ae), (filter_none P _ _ HP As). reflexivity.
Qed.

(** C1.  In a completed iteration [i] of the loop, the evaluation
    ([save_evaluation_log]) and the checkpoint ([save_checkpoint]) are
    run exactly when [i + 1] is a multiple of [checkpoint_iters]; in
    any other iteration, however it ends, nothing is evaluated, no file
    name is asked for and no weights are taken or written. *)
Theorem checkpoint_every_checkpoint_iters k l iteration batch best_score w :
  let r := train_iteration k l iteration batch best_score w in
  (forall best',
      outcome r = inr best' ->
      ((checkpoint_iters k | iteration + 1)
       <-> evaluated_and_saved k l iteration best_score best' (trace r)))
  /\ (~ (checkpoint_iters k | iteration + 1) ->
      forallb (fun ev => negb (is_evaluation_or_save ev)) (trace r) = true).
Proof.
  intros r. subst r. split.
  - intros best' Hout. destruct batch as [image label].
    destruct (train_iteration k l iteration (image, label) best_score w) as [t w' o] eqn:Hrun.
    simpl in Hout. subst o. simpl.
    destruct (train_iteration_normal _ _ _ _ _ _ _ Hrun)
      as (image1 & label1 & label2 & logits & logits_aux & loss_pre & loss_aux & scaled
          & loss_item & loss_pre_item & aux_items & lr & t_eval & t_save & w1 & w2 & w3
          & Ht & _ & _ & Hm & Hc & Hck).
    split.
    + intros Hdiv.
      assert (Hrem : ((iteration + 1) mod checkpoint_iters k =? 0) = true).
      { apply Z.eqb_eq. apply Z.mod_divide; assumption. }
      rewrite Hrem in Ht, Hck. destruct Hck as (He & Hs).
      exists (head_events l iteration image label image1 label1 label2
              ++ forward_events k l iteration image1 label2 logits logits_aux loss_pre loss_aux
              ++ step_events l (tensor_plus loss_pre (py_sum loss_aux)) scaled
              ++ meters_events l (tensor_plus loss_pre (py_sum loss_aux)) loss_pre loss_aux
                   loss_item loss_pre_item aux_items
              ++ (if (iteration + 1) mod message_iters k =? 0
                  then message_events k l iteration lr else [])),
        t_eval, t_save, w1, w2, w3.
      split; [| split; [exact He | exact Hs]].
      rewrite Ht. rewrite <- !app_assoc. reflexivity.
    + intros (before & t_eval' & t_save' & w1' & w2' & w3' & Ht' & He & Hs).
      destruct (Z.eqb_spec ((iteration + 1) mod checkpoint_iters k) 0) as [Hrem | Hrem].
      * apply Z.mod_divide; assumption.
      * exfalso.
        assert (Hnd : ~ (checkpoint_iters k | iteration + 1)).
        { intros Hdiv. apply Hrem. apply Z.mod_divide; assumption. }
        pose proof (@no_evaluation_between_checkpoints _ _ k l iteration (image, label) best_score
                      Hnd w) as A.
        rewrite Hrun in A. simpl in A. rewrite Ht' in A.
        rewrite !forallb_app in A.
        apply andb_true_iff in A. destruct A as (_ & A).
        apply andb_true_iff in A. destruct A as (A & _).
        apply (forallb_existsb_disjoint (fun ev => negb (is_evaluation_or_save ev))
                 is_eval_model t_eval');
          [| exact A | eapply save_evaluation_log_evaluates; exact He].
        intros ev Hev. unfold is_evaluation_or_save. rewrite Hev. reflexivity.
  - intros Hnd. apply no_evaluation_between_checkpoints. exact Hnd.
Qed.


Lemma forallb_impl (P Q : event -> bool) (t : list event) :
  (forall ev, Q ev = true -> P ev = true) -> forallb Q t = true -> forallb P t = true.
Proof.
  intros HPQ. induction t as [| ev t IH]; simpl; intros H.
  - reflexivity.
  - apply andb_true_iff in H. destruct H as (Hev & Ht).
    rewrite (HPQ ev Hev), (IH Ht). reflexivity.
Qed.

Lemma head_events_filtered (P : event -> bool) l iteration image label image1 label1 label2 :
  (forall ev, negb (is_training_step ev) = true -> P ev = false) ->
  filter P (head_events l iteration image label image1 label1 label2) = [].
Proof.
  intros HP. apply (filter_none P (fun ev => negb (is_training_step ev)) _ HP).
  unfold head_events. destruct (iteration =? 0); reflexivity.
Qed.

Lemma criteria_events_kept (P : event -> bool) label pairs losses :
  (forall ev, is_criteria_call ev = true -> P ev = true) ->
  filter P (criteria_events label pairs losses) = criteria_events label pairs losses.
Proof.
  intros HP. apply filter_all.
  exact (forallb_impl P is_criteria_call _ HP (criteria_events_all label pairs losses)).
Qed.

Lemma criteria_events_dropped (P : event -> bool) label pairs losses :
  (forall ev, is_criteria_call ev = true -> P ev = false) ->
  filter P (criteria_events label pairs losses) = [].
Proof.
  intros HP.
  exact (filter_none P is_criteria_call _ HP (criteria_events_all label pairs losses)).
Qed.


Lemma meter_events_dropped (P : event -> bool) pairs items :
  (forall ev, (is_tensor_item ev || is_avg_meter_update ev)%bool = true -> P ev = false) ->
  filter P (meter_events pairs items) = [].
Proof.
  intros HP. exact (filter_none P _ _ HP (meter_events_all pairs items)).
Qed.

(** C4.  In every completed iteration the calls of the mixed-precision
    step are exactly these, in this order: the autocast region is
    entered with [enabled = use_fp16]; inside it the network is called
    and the main and auxiliary losses are computed; the region is left;
    the total loss goes through [scaler.scale], the backward pass runs
    on the scaled loss, and the optimizer is stepped by [scaler.step]
    followed by [scaler.update]. *)
Theorem mixed_precision_every_iteration k l iteration image label best_score w t w' best' :
  train_iteration k l iteration (image, label) best_score w = mkResult t w' (inr best') ->
  exists image1 label2 logits logits_aux loss_pre loss_aux scaled,
    filter is_amp_step t
    = [Ev (AutocastEnter (use_fp16 k)) (inr tt);
       Ev (NetCall (net l) image1) (inr (logits :: logits_aux));
       Ev (CriteriaCall (criteria_pre l) logits label2) (inr loss_pre)]
      ++ criteria_events label2 (combine (criteria_aux l) logits_aux) loss_aux
      ++ [Ev AutocastExit (inr tt);
          Ev (ScalerScale (scaler l) (tensor_plus loss_pre (py_sum loss_aux))) (inr scaled);
          Ev (Backward scaled) (inr tt);
          Ev (ScalerStep (scaler l) (optimizer l)) (inr tt);
          Ev (ScalerUpdate (scaler l)) (inr tt)].
Proof.
  intros Hrun.
  destruct (train_iteration_normal _ _ _ _ _ _ _ Hrun)
    as (image1 & label1 & label2 & logits & logits_aux & loss_pre & loss_aux & scaled
        & loss_item & loss_pre_item & aux_items & lr & t_eval & t_save & w1 & w2 & w3
        & Ht & _ & _ & Hm & Hc & Hck).
  exists image1, label2, logits, logits_aux, loss_pre, loss_aux, scaled.
  assert (HP : forall ev, negb (is_training_step ev) = true -> is_amp_step ev = false)
    by by_call.
  rewrite Ht, !filter_app.
  rewrite (head_events_filtered _ _ _ _ _ _ _ _ HP).
  unfold forward_events, step_events, meters_events.
  rewrite !filter_app.
  rewrite criteria_events_kept by by_call.
  rewrite meter_events_dropped by by_call.
  destruct ((iteration + 1) mod message_iters k =? 0).
  all: destruct ((iteration + 1) mod checkpoint_iters k =? 0).
  all: try (destruct Hck as (He & Hs);
            erewrite checkpoint_part_filtered; [| exact HP | exact He | exact Hs]).
  all: simpl; rewrite ?app_nil_r, <- ?app_assoc; simpl; reflexivity.
Qed.






(** C7.  In a completed iteration [i] the training log message is
    printed exactly when [i + 1] is a multiple of [message_iters]; it
    is then printed once, right after one [get_lr()] call, and the
    learning rate it reports is the arithmetic mean of the learning
    rates that call returned.  The scheduler is stepped exactly once,
    as the last call of the iteration. *)
Theorem log_message_and_scheduler_step k l iteration image label best_score w t w' best' :
  train_iteration k l iteration (image, label) best_score w = mkResult t w' (inr best') ->
  ((message_iters k | iteration + 1) ->
   exists lr,
     filter (fun ev => is_get_lr ev || is_print_log_msg ev)%bool t
     = [Ev (SchedulerGetLr (lr_scheduler l)) (inr lr);
        Ev (PrintLogMsg iteration (max_iter k) (arithmetic_mean lr) (time_meter l)
              (loss_meter l) (loss_pre_meter l) (loss_aux_meters l)) (inr tt)])
  /\ (~ (message_iters k | iteration + 1) ->
      filter (fun ev => is_get_lr ev || is_print_log_msg ev)%bool t = [])
  /\ (exists t_before,
        t = t_before ++ [Ev (SchedulerStep (lr_scheduler l)) (inr tt)]
        /\ filter is_scheduler_step t_before = []).
Proof.
  intros Hrun.
  destruct (train_iteration_normal _ _ _ _ _ _ _ Hrun)
    as (image1 & label1 & label2 & logits & logits_aux & loss_pre & loss_aux & scaled
        & loss_item & loss_pre_item & aux_items & lr & t_eval & t_save & w1 & w2 & w3
        & Ht & _ & _ & Hm & Hc & Hck).
  assert (HP : forall ev, negb (is_training_step ev) = true ->
                          (is_get_lr ev || is_print_log_msg ev)%bool = false) by by_call.
  assert (HS : forall ev, negb (is_training_step ev) = true -> is_scheduler_step ev = false)
    by by_call.
  assert (Hfilter :
    filter (fun ev => is_get_lr ev || is_print_log_msg ev)%bool t
    = if (iteration + 1) mod message_iters k =? 0 then message_events k l iteration lr else []).
  { rewrite Ht, !filter_app.
    rewrite (head_events_filtered _ _ _ _ _ _ _ _ HP).
    unfold forward_events, step_events, meters_events.
    rewrite !filter_app.
    rewrite criteria_events_dropped by by_call.
    rewrite meter_events_dropped by by_call.
    destruct ((iteration + 1) mod message_iters k =? 0).
    all: destruct ((iteration + 1) mod checkpoint_iters k =? 0).
    all: try (destruct Hck as (He & Hs);
              erewrite checkpoint_part_filtered; [| exact HP | exact He | exact Hs]).
    all: reflexivity. }
  split; [| split].
  - intros Hdiv. exists lr. rewrite Hfilter.
    apply (Z.mod_divide _ _ Hm) in Hdiv. rewrite Hdiv. reflexivity.
  - intros Hnd. rewrite Hfilter.
    destruct (Z.eqb_spec ((iteration + 1) mod message_iters k) 0) as [Hrem | Hrem].
    + exfalso. apply Hnd. apply Z.mod_divide; assumption.
    + reflexivity.
  - exists (head_events l iteration image label image1 label1 label2
            ++ forward_events k l iteration image1 label2 logits logits_aux loss_pre loss_aux
            ++ step_events l (tensor_plus loss_pre (py_sum loss_aux)) scaled
            ++ meters_events l (tensor_plus loss_pre (py_sum loss_aux)) loss_pre loss_aux
                 loss_item loss_pre_item aux_items
            ++ (if (iteration + 1) mod message_iters k =? 0
                then message_events k l iteration lr else [])
            ++ (if (iteration + 1) mod checkpoint_iters k =? 0 then t_eval ++ t_save else [])).
    split.
    + rewrite Ht. rewrite <- !app_assoc. reflexivity.
    + rewrite !filter_app.
      rewrite (head_events_filtered _ _ _ _ _ _ _ _ HS).
      unfold forward_events, step_events, meters_events.
      rewrite !filter_app.
      rewrite criteria_events_dropped by by_call.
      rewrite meter_events_dropped by by_call.
      destruct ((iteration + 1) mod message_iters k =? 0).
      all: destruct ((iteration + 1) mod checkpoint_iters k =? 0).
      all: try (destruct Hck as (He & Hs);
                erewrite checkpoint_part_filtered; [| exact HS | exact He | exact Hs]).
      all: reflexivity.
Qed.

End Loop.

(** ** The best score *)

Section BestScore.
Context {V : Values} {F : Framework}.










End BestScore.

(** ** Exceptions *)

Section Propagation.
Context {V : Values} {F : Framework}.















(** A handler does what the script never does: the failed call is
    followed by a normal outcome. *)
Lemma try_except_recovers (R : Type) (c : fcall R) (fallback : R) w w1 e :
  handle c w = (w1, inl e) ->
  ~ propagated (try_except (call c) (fun _ => ret fallback) w).
Proof.
  intros Hc (_ & Hlast). unfold try_except, call in Hlast. rewrite Hc in Hlast.
  simpl in Hlast. discriminate (Hlast e eq_refl).
Qed.

End Propagation.


Section PropagationScript.
Context {V : Values} {F : Framework}.











End PropagationScript.

(** ** The [--amp] flag *)

Section Amp.
Context {V : Values} {F : Framework}.

Lemma bind_trace_cases (A B : Type) (m : M A) (f : A -> M B) w ev :
  In ev (trace (bind m f w)) ->
  In ev (trace (m w))
  \/ exists t1 w1 a, m w = mkResult t1 w1 (inr a) /\ In ev (trace (f a w1)).
Proof.
  unfold bind. destruct (m w) as [t1 w1 [e | a]]; simpl; intros Hin.
  - left. exact Hin.
  - destruct (f a w1) as [t2 w2 o] eqn:Ef. simpl in Hin.
    apply in_app_or in Hin. destruct Hin as [Hin | Hin].
    + left. exact Hin.
    + right. exists t1, w1, a. rewrite Ef. auto.
Qed.

Lemma always_In (P : event -> bool) (A : Type) (m : M A) w ev :
  always P m -> In ev (trace (m w)) -> P ev = true.
Proof.
  intros Hm Hin. specialize (Hm w). rewrite forallb_forall in Hm. apply Hm. exact Hin.
Qed.

(** Reading the configuration: no autocast region, and the
    configuration returned is the one [yaml.load] answered. *)
Lemma with_open_yaml path w ev :
  In ev (trace (with_open path (fun f => call (YamlLoad f)) w)) ->
  autocast_flag ev = None
  /\ (forall cfg cfg0 t1 w1,
        with_open path (fun f => call (YamlLoad f)) w = mkResult t1 w1 (inr cfg0) ->
        loaded_config ev = Some cfg -> cfg = cfg0).
Proof.
  unfold with_open, bind, finally, call.
  destruct (handle (OpenFile path) w) as [w1 [e | f]]; simpl.
  - intros [<- | []]. split; [reflexivity |]. discriminate.
  - destruct (handle (YamlLoad f) w1) as [w2 [e | cfg1]];
      destruct (handle (FileExit f) w2) as [w3 [e3 | []]]; simpl;
      intros [<- | [<- | [<- | []]]]; (split; [reflexivity |]);
      simpl; intros cfg cfg0 t1 w0 Hrun Hcfg; congruence.
Qed.

Lemma train_autocast_follows args k :
  always (autocast_follows (use_fp16 k)) (train args k).
Proof.
  unfold train, get_optimizer, get_meters.
  repeat first
    [ apply always_for; intros ? [? ?] ?;
      unfold train_iteration, with_autocast, forward_and_losses, save_evaluation_log,
        save_checkpoint, log_ious, save_best_model
    | apply always_call; intros; simpl; first [reflexivity | apply eqb_reflx]
    | always_step ].
Qed.

(** C10.  The value of [--amp] changes nothing: from the same state of
    the world, the [__main__] block run with two namespaces that differ
    in [amp] only makes the same calls, leaves the same world and ends
    the same way.  Whatever the namespace, an autocast region of a run
    is entered with the [use_fp16] value of the configuration that
    [yaml.load] returned in that run. *)
Theorem amp_flag_is_ignored args1 args2 :
  same_but_amp args1 args2 ->
  (forall w, main_with_args args1 w = main_with_args args2 w)
  /\ (forall w yaml_event autocast_event cfg enabled,
         In yaml_event (trace (main_with_args args1 w)) ->
         In autocast_event (trace (main_with_args args1 w)) ->
         loaded_config yaml_event = Some cfg ->
         autocast_flag autocast_event = Some enabled ->
         enabled = cfg_use_fp16 cfg).
Proof.
  intros Hsame. split.
  - intros w. destruct args1, args2. unfold same_but_amp in Hsame. simpl in Hsame.
    destruct Hsame as (? & ? & ? & ? & ? & ? & ? & ? & ? & ? & ? & ?). subst.
    reflexivity.
  - intros w yaml_event autocast_event cfg enabled Hy Ha Hcfg Hflag.
    unfold main_with_args in Hy, Ha.
    apply bind_trace_cases in Ha. destruct Ha as [Ha | (t1 & w1 & cfg0 & Hopen & Ha)].
    { apply with_open_yaml in Ha. destruct Ha as (Ha & _). congruence. }
    assert (Hrest : autocast_follows (cfg_use_fp16 cfg0) autocast_event = true
                    /\ (In yaml_event (trace (with_open (Args.config_path args1)
                                                (fun f => call (YamlLoad f)) w))
                        \/ autocast_follows (cfg_use_fp16 cfg0) yaml_event = true)).
    { split.
      - eapply always_In; [| exact Ha].
        repeat first [ apply (train_autocast_follows args1 (train_args_of cfg0 args1))
                     | always_step ].
      - apply bind_trace_cases in Hy. destruct Hy as [Hy | (t1' & w1' & cfg1 & Hopen' & Hy)].
        + left. exact Hy.
        + right. rewrite Hopen in Hopen'. injection Hopen' as <- <- <-.
          eapply always_In; [| exact Hy].
          repeat first [ apply (train_autocast_follows args1 (train_args_of cfg0 args1))
                     | always_step ]. }
    destruct Hrest as (Hauto & Hyaml).
    assert (Hcfg0 : cfg = cfg0).
    { destruct Hyaml as [Hy' | Hy'].
      - apply with_open_yaml in Hy'. destruct Hy' as (_ & Hy'). eapply Hy'; eassumption.
      - exfalso. destruct yaml_event as [R c r]. destruct c; simpl in *; congruence. }
    subst cfg0.
    destruct autocast_event as [R c r]. destruct c; simpl in *; try discriminate.
    injection Hflag as <-. apply eqb_prop. exact Hauto.
Qed.

End Amp.

(** ** The theorems at work on the small framework *)

Section SmallFramework.
#[local] Existing Instance Toy.values.

(** With [checkpoint_iters = 1] the first iteration evaluates and saves. *)
Lemma checkpoint_every_checkpoint_iters_witness :
  (1 | 0 + 1)
  /\ evaluated_and_saved (F := Toy.framework Toy.setup2) Toy.kwargs Toy.locals2 0 0 7
       (trace (Toy.first_iteration Toy.setup2)).
Proof.
  destruct (checkpoint_every_checkpoint_iters (F := Toy.framework Toy.setup2)
              Toy.kwargs Toy.locals2 0 (1, 2) 0 0%nat) as [H _].
  split.
  - exists 1. reflexivity.
  - apply (H 7).
    + vm_compute. reflexivity.
    + exists 1. reflexivity.
Defined.

(** On rank 0 the checkpoint is written. *)
Lemma save_checkpoint_rank_0_witness :
  trace (save_checkpoint (F := Toy.framework Toy.setup2) "models/0" "bisenetv2" 0%nat)
  = [Ev (GetNextFileName "models/0" "model_final_" ".pth") (inr "models/0/model_final_0.pth");
     Ev (StateDict "bisenetv2") (inr "bisenetv2.state_dict");
     Ev DistGetRank (inr 0);
     Ev (TorchSave "bisenetv2.state_dict" "models/0/model_final_0.pth") (inr tt)].
Proof.
  exact (proj1 (save_checkpoint_rank_0 (F := Toy.framework Toy.setup2)
                  "models/0" "bisenetv2" 0%nat)
           1%nat "models/0/model_final_0.pth" 2%nat "bisenetv2.state_dict" 3%nat 0
           eq_refl eq_refl eq_refl).
Defined.

(** The mixed-precision calls of the first iteration, [use_fp16] being true. *)
Lemma mixed_precision_every_iteration_witness :
  exists image1 label2 logits logits_aux loss_pre loss_aux scaled,
    filter is_amp_step (trace (Toy.first_iteration Toy.setup2))
    = [Ev (AutocastEnter true) (inr tt);
       Ev (NetCall "bisenetv2" image1) (inr (logits :: logits_aux));
       Ev (CriteriaCall "SoftDiceLoss" logits label2) (inr loss_pre)]
      ++ criteria_events label2 (combine ["SoftDiceLoss"; "SoftDiceLoss"] logits_aux) loss_aux
      ++ [Ev AutocastExit (inr tt);
          Ev (ScalerScale "GradScaler" (tensor_plus loss_pre (py_sum loss_aux))) (inr scaled);
          Ev (Backward scaled) (inr tt);
          Ev (ScalerStep "GradScaler" "Adam") (inr tt);
          Ev (ScalerUpdate "GradScaler") (inr tt)].
Proof.
  apply (mixed_precision_every_iteration (F := Toy.framework Toy.setup2)
           Toy.kwargs Toy.locals2 0 1 2 0 0%nat
           (w' := final (Toy.first_iteration Toy.setup2)) (best' := 7)).
  vm_compute. reflexivity.
Defined.

(** Six named parameters of dimensions 4, 1, 0, 2, 5 and 3: the groups are
    [[4; 2]] with the weight decay 5 of the caller and [[1]] with weight decay 0. *)
Lemma get_optimizer_two_groups_witness :
  outcome (get_optimizer (F := Toy.framework Toy.setup2) "bisenetv2" 1 (0, 1) 5 0%nat)
  = inr "Adam"
  /\ map params (optimizer_groups (Toy.named_parameters Toy.setup2)) = [[4; 2]; [1]]
  /\ map (group_weight_decay 5) (optimizer_groups (Toy.named_parameters Toy.setup2)) = [5; 0].
Proof.
  destruct (get_optimizer_two_groups (F := Toy.framework Toy.setup2)
              "bisenetv2" 1 (0, 1) 5 0%nat (w1 := 1%nat)
              (named := Toy.named_parameters Toy.setup2) eq_refl)
    as (_ & Hout & Hwd & _).
  split; [exact Hout | split; [reflexivity | exact Hwd]].
Defined.

(** The parameter of dimension 3 is in neither group. *)
Lemma get_optimizer_skips_other_dims_witness :
  dim 3 <> 1 /\ dim 3 <> 2 /\ dim 3 <> 4
  /\ Forall (fun g => ~ In 3 (params g)) (optimizer_groups (Toy.named_parameters Toy.setup2)).
Proof.
  assert (H1 : dim 3 <> 1) by (simpl; lia).
  assert (H2 : dim 3 <> 2) by (simpl; lia).
  assert (H4 : dim 3 <> 4) by (simpl; lia).
  repeat split; try assumption.
  apply (get_optimizer_skips_other_dims (F := Toy.framework Toy.setup2)
           "bisenetv2" 1 (0, 1) 5 0%nat 3 H1 H2 H4
           (Ev (NewAdam (optimizer_groups (V := Toy.values) (Toy.named_parameters Toy.setup2))
                  1 (0, 1) 5)
               (inr "Adam"))).
  - simpl. right. left. reflexivity.
  - reflexivity.
Defined.



(** With [message_iters = 1] the first iteration prints the message. *)
Lemma log_message_and_scheduler_step_witness :
  (1 | 0 + 1)
  /\ exists lr,
       filter (fun ev => is_get_lr ev || is_print_log_msg ev)%bool
              (trace (Toy.first_iteration Toy.setup2))
       = [Ev (SchedulerGetLr "lr_scheduler") (inr lr);
          Ev (PrintLogMsg 0 2 (arithmetic_mean lr) "time" "loss" "loss_prem"
                ["loss_aux0"; "loss_aux1"]) (inr tt)].
Proof.
  assert (Hdiv : (1 | 0 + 1)) by (exists 1; reflexivity).
  split; [exact Hdiv |].
  destruct (log_message_and_scheduler_step (F := Toy.framework Toy.setup2)
              Toy.kwargs Toy.locals2 0 1 2 0 0%nat
              (t := trace (Toy.first_iteration Toy.setup2))
              (w' := final (Toy.first_iteration Toy.setup2)) (best' := 7))
    as (Hmsg & _ & _).
  - vm_compute. reflexivity.
  - exact (Hmsg Hdiv).
Defined.



(** The same run with [amp] true and with [amp] false. *)
Lemma amp_flag_is_ignored_witness :
  same_but_amp Toy.args Toy.args_without_amp
  /\ Args.amp Toy.args <> Args.amp Toy.args_without_amp
  /\ main_with_args (F := Toy.framework Toy.setup2) Toy.args 0%nat
     = main_with_args (F := Toy.framework Toy.setup2) Toy.args_without_amp 0%nat.
Proof.
  assert (Hsame : same_but_amp Toy.args Toy.args_without_amp).
  { unfold same_but_amp. simpl. repeat split; reflexivity. }
  split; [exact Hsame |]. split; [simpl; discriminate |].
  exact (proj1 (amp_flag_is_ignored (F := Toy.framework Toy.setup2) Hsame) 0%nat).
Defined.

End SmallFramework.
